(** * Token lifecycle of [cmd/cmd.go]

    A shallow embedding of the authentication set-up of the [micro]
    command ([setupAuthForCLI], [setupAuthForService], [refreshAuthToken])
    and of its error presentation ([formatErr], [upcaseInitial]).

    Go strings are byte strings: they are modelled by [string], whose
    characters are the 8-bit [ascii].  Instants and durations are counted in
    nanoseconds, as [time.Time] and [time.Duration] do.  Pointers that the
    code dereferences are [option]s, and dereferencing [None] panics. *)

From Stdlib Require Import ZArith List String Ascii Bool Lia.
Import ListNotations.

Local Open Scope string_scope.
Local Open Scope list_scope.
Local Open Scope Z_scope.

(** ** Package [time] *)

Module time.

(** A [Duration] is a count of nanoseconds. *)
Definition Duration := Z.

(** A [Time] is the wall-clock instant, in nanoseconds since the Unix
    epoch. *)
Definition Time := Z.

Definition Nanosecond : Duration := 1.
Definition Second : Duration := 1000000000 * Nanosecond.
Definition Minute : Duration := 60 * Second.
Definition Hour : Duration := 60 * Minute.

Definition Add (t : Time) (d : Duration) : Time := t + d.

Definition Before (t u : Time) : bool := t <? u.

(** [Unix] is the number of whole seconds elapsed since the epoch. *)
Definition Unix (t : Time) : Z := t / Second.

End time.

(** ** Package [auth]: the data cmd.go handles *)

(** Modelled from the spec: the declaration of [auth.AccountToken] is not
    part of cmd.go; the fields are the spec's access token, refresh token
    and expiry (the issuer is kept in the auth options, where cmd.go sets
    it). *)
Record AccountToken := mkToken {
  AccessToken : string;
  RefreshToken : string;
  Expiry : time.Time
}.

(** Modelled from the spec: [auth.Account], of which cmd.go reads the
    credential pair. *)
Record Account := mkAccount {
  acc_ID : string;
  acc_Secret : string
}.

(** What [util.GetEnv] answers; cmd.go reads its name. *)
Record Env := mkEnv { Name : string }.

(** Errors.  [ErrInvalidToken] is the one value [auth.ErrInvalidToken];
    [MicroError] is a [*errors.Error], of which cmd.go reads the detail;
    [OtherError] is any other error, given by the text of its [Error()]. *)
Inductive error :=
| ErrInvalidToken
| MicroError (Id : string) (Code : Z) (Detail : string) (Status : string)
| OtherError (msg : string).

Definition is_ErrInvalidToken (e : option error) : bool :=
  match e with
  | Some ErrInvalidToken => true
  | _ => false
  end.

(** The fields of [auth.Options] that cmd.go reads or sets: process-wide
    auth state. *)
Record Options := mkOptions {
  ID : string;
  Secret : string;
  Token : option AccountToken;
  Issuer : string
}.

(** The [auth.Option]s cmd.go passes to [auth.DefaultAuth.Init]. *)
Inductive Option :=
| ClientToken (token : option AccountToken)
| auth_Issuer (ns : string)
| Credentials (id secret : string).

Definition applyOption (o : Options) (opt : Option) : Options :=
  match opt with
  | ClientToken token => mkOptions (ID o) (Secret o) token (Issuer o)
  | auth_Issuer ns => mkOptions (ID o) (Secret o) (Token o) ns
  | Credentials id secret => mkOptions id secret (Token o) (Issuer o)
  end.

(** The [auth.TokenOption]s of a token request. *)
Inductive TokenOption :=
| WithToken (rt : string)
| WithTokenIssuer (iss : string)
| WithExpiry (ex : time.Duration)
| WithCredentials (id secret : string).

(** The [auth.GenerateOption]s of an account request. *)
Inductive GenerateOption :=
| WithType (t : string)
| WithScopes (s : list string).

(** ** The world the flows run in *)

(** What the process does that others can observe, oldest first. *)
Inductive Event :=
| EvTick
| EvToken (opts : list TokenOption)
| EvGenerate (name : string) (opts : list GenerateOption)
| EvSave (tok : option AccountToken)
| EvWarnf (format : string)
| EvDebugf (format : string).

Record World := mkWorld {
  DefaultAuth : Options;
  trace : list Event
}.

(** The collaborators of cmd.go; none of them is defined in cmd.go, so each
    is a parameter.  Those that are called repeatedly answer from what has
    happened so far. *)
Record Collaborators := mkCollaborators {
  util_GetEnv : Env * option error;
  namespace_Get : string -> string * option error;
  clitoken_Get : option AccountToken * option error;
  clitoken_Save : option AccountToken -> option error;
  auth_Token : list Event -> list TokenOption ->
               option AccountToken * option error;
  auth_Generate : list Event -> string -> list GenerateOption ->
                  option Account * option error;
  time_Now : list Event -> time.Time;
  uuid_New : list Event -> string;
  logger_V_Debug : bool
}.

(** A computation returns or panics, and leaves a world behind. *)
Inductive Outcome (A : Type) :=
| Ret (a : A)
| Panic.

Arguments Ret {A} a.
Arguments Panic {A}.

Definition M (A : Type) := World -> Outcome A * World.

Definition ret {A} (a : A) : M A := fun w => (Ret a, w).

Definition bind {A B} (c : M A) (k : A -> M B) : M B :=
  fun w =>
    match c w with
    | (Ret a, w') => k a w'
    | (Panic, w') => (Panic, w')
    end.

Declare Scope go_scope.
Delimit Scope go_scope with go.
Notation "x <- c ;; k" := (bind c (fun x => k))
  (at level 61, c at next level, right associativity) : go_scope.
Notation "' p <- c ;; k" := (bind c (fun x => let 'p := x in k))
  (at level 61, p pattern, c at next level, right associativity) : go_scope.
Notation "c ;; k" := (bind c (fun _ => k))
  (at level 61, right associativity) : go_scope.
Local Open Scope go_scope.

Definition panic {A} : M A := fun w => (Panic, w).

(** Reading a field through a pointer. *)
Definition deref {A} (p : option A) : M A :=
  match p with
  | Some a => ret a
  | None => panic
  end.

Definition emit (e : Event) : M unit :=
  fun w => (Ret tt, mkWorld (DefaultAuth w) (trace w ++ [e])).

Definition len (s : string) : Z := Z.of_nat (String.length s).

Section Flows.

Variable X : Collaborators.

(** [auth.DefaultAuth.Options()] *)
Definition auth_Options : M Options := fun w => (Ret (DefaultAuth w), w).

(** [auth.DefaultAuth.Init(opts...)] *)
Definition auth_Init (opts : list Option) : M unit :=
  fun w => (Ret tt, mkWorld (fold_left applyOption opts (DefaultAuth w)) (trace w)).

(** [auth.Token(opts...)] *)
Definition Token_ (opts : list TokenOption)
  : M (option AccountToken * option error) :=
  fun w => (Ret (auth_Token X (trace w) opts),
            mkWorld (DefaultAuth w) (trace w ++ [EvToken opts])).

(** [auth.Generate(name, opts...)] *)
Definition Generate (name : string) (opts : list GenerateOption)
  : M (option Account * option error) :=
  fun w => (Ret (auth_Generate X (trace w) name opts),
            mkWorld (DefaultAuth w) (trace w ++ [EvGenerate name opts])).

(** [clitoken.Save(ctx, tok)] *)
Definition Save (tok : option AccountToken) : M (option error) :=
  fun w => (Ret (clitoken_Save X tok),
            mkWorld (DefaultAuth w) (trace w ++ [EvSave tok])).

(** [time.Now()] *)
Definition Now : M time.Time := fun w => (Ret (time_Now X (trace w)), w).

(** [uuid.New().String()] *)
Definition uuid_New_String : M string :=
  fun w => (Ret (uuid_New X (trace w)), w).

Definition Warnf (format : string) : M unit := emit (EvWarnf format).
Definition Debugf (format : string) : M unit := emit (EvDebugf format).

(** *** [setupAuthForCLI] *)
Definition setupAuthForCLI : M (option error) :=
  let '(env, err) := util_GetEnv X in
  match err with
  | Some e => ret (Some e)
  | None =>
    let '(ns, err) := namespace_Get X (Name env) in
    match err with
    | Some e => ret (Some e)
    | None =>
      let '(tok, err) := clitoken_Get X in
      match err with
      | Some e => ret (Some e)
      | None =>
        t <- deref tok ;;
        (* If there is no refresh token, do not try to refresh it *)
        if len (RefreshToken t) =? 0 then ret None
        else
          now <- Now ;;
          (* Check if token is valid *)
          if time.Before now (time.Add (Expiry t) (time.Minute * -1)) then
            auth_Init [ClientToken tok; auth_Issuer ns] ;;
            ret None
          else
            (* Get new access token from refresh token *)
            '(tok, err) <- Token_ [WithToken (RefreshToken t);
                                   WithTokenIssuer ns;
                                   WithExpiry (time.Hour * 24)] ;;
            match err with
            | Some _ => ret None
            | None =>
              (* Save the token to user config file *)
              auth_Init [ClientToken tok; auth_Issuer ns] ;;
              Save tok
            end
      end
    end
  end.

(** *** [setupAuthForService] *)

(** The part of [setupAuthForService] from "generate the first token" on,
    which both branches of the credentials test reach. *)
Definition firstToken (accID accSecret : string) : M (option error) :=
  '(token, err) <- Token_ [WithCredentials accID accSecret;
                           WithExpiry time.Hour] ;;
  match err with
  | Some e => ret (Some e)
  | None =>
    (* set the credentials and token in auth options *)
    auth_Init [ClientToken token; Credentials accID accSecret] ;;
    ret None
  end.

Definition setupAuthForService : M (option error) :=
  opts <- auth_Options ;;
  (* extract the account creds from options *)
  let accID := ID opts in
  let accSecret := Secret opts in
  (* if no credentials were provided, self generate an account *)
  if (len accID =? 0) || (len accSecret =? 0) then
    name <- uuid_New_String ;;
    '(acc, err) <- Generate name [WithType "service"; WithScopes ["service"]] ;;
    match err with
    | Some e => ret (Some e)
    | None =>
      (if logger_V_Debug X
       then Debugf "Auth [%v] Generated an auth account"
       else ret tt) ;;
      a <- deref acc ;;
      firstToken (acc_ID a) (acc_Secret a)
    end
  else firstToken accID accSecret.

(** *** [refreshAuthToken] *)

(** The body of [case <-t.C:], one tick of the loop.  It returns when the
    loop goes back to waiting for the next tick. *)
Definition tick : M unit :=
  ptok <- (o <- auth_Options ;; ret (Token o)) ;;
  tok <- deref ptok ;;
  now <- Now ;;
  (* don't refresh the token if it's not close to expiring *)
  if time.Unix (Expiry tok) >? time.Unix (time.Add now time.Minute) then
    ret tt
  else
    '(ptok, err) <- Token_ [WithToken (RefreshToken tok);
                            WithExpiry (time.Minute * 10)] ;;
    let install (ptok : option AccountToken) : M unit :=
      (* set the token *)
      tok <- deref ptok ;;
      Debugf "Auth token refreshed, expires at %v" ;;
      auth_Init [ClientToken ptok] in
    if is_ErrInvalidToken err then
      Warnf "[Auth] Refresh token expired, regenerating using account credentials" ;;
      id <- (o <- auth_Options ;; ret (ID o)) ;;
      secret <- (o <- auth_Options ;; ret (Secret o)) ;;
      '(ptok, err) <- Token_ [WithCredentials id secret;
                              WithExpiry (time.Minute * 10)] ;;
      install ptok
    else
      match err with
      | Some _ => Warnf "[Auth] Error refreshing token: %v"
      | None => install ptok
      end.

(** The period of the ticker [t]; an [EvTick] is one delivery on [t.C]. *)
Definition ticker_period : time.Duration := time.Second * 15.

(** The loop, cut after a number of ticks. *)
Fixpoint ticks (n : nat) : M unit :=
  match n with
  | O => ret tt
  | S n' => emit EvTick ;; tick ;; ticks n'
  end.

(** How the goroutine stands: back from [refreshAuthToken], or still in
    its loop. *)
Inductive Loop := Returned | Looping.

Definition refreshAuthToken (n : nat) : M Loop :=
  o <- auth_Options ;;
  (* can't refresh a token we don't have *)
  match Token o with
  | None => ret Returned
  | Some _ => ticks n ;; ret Looping
  end.

(** *** The auth set-up of [Before] *)

(** How [Before] leaves its auth set-up: [logger.Fatalf] ends the process,
    otherwise the refresh goroutine is started and start-up goes on. *)
Inductive Startup := Fatal (err : error) | Started.

(** Lines "setup auth credentials" to "refresh the auth token" of
    [Before]; [service] is [c.service]. *)
Definition Before_auth (service : bool) : M Startup :=
  err <- (if service then setupAuthForService else setupAuthForCLI) ;;
  match err with
  | Some e => ret (Fatal e)
  | None => ret Started
  end.

End Flows.


(** ** Error presentation: [formatErr] *)

(** *** Package [unicode/utf8], as the [range] clause and [string(rune)]
    use it *)

Module utf8.

Definition RuneError : Z := 65533.
Definition MaxRune : Z := 1114111.

Definition byte (c : ascii) : Z := Z.of_N (N_of_ascii c).
Definition chr (b : Z) : ascii := ascii_of_N (Z.to_N b).

Definition between (lo hi b : Z) : bool := (lo <=? b) && (b <=? hi).

(** A continuation byte, [0x80..0xBF]. *)
Definition cont (b : Z) : bool := between 128 191 b.

(** The first rune of a string and the number of bytes it takes; a byte
    that starts no well-formed encoding is [RuneError] of width 1. *)
Definition DecodeRuneInString (s : string) : Z * Z :=
  match s with
  | EmptyString => (RuneError, 0)
  | String c0 s1 =>
    let b0 := byte c0 in
    if b0 <? 128 then (b0, 1)
    else if between 194 223 b0 then
      match s1 with
      | String c1 _ =>
        let b1 := byte c1 in
        if cont b1
        then (Z.lor (Z.shiftl (Z.land b0 31) 6) (Z.land b1 63), 2)
        else (RuneError, 1)
      | _ => (RuneError, 1)
      end
    else if between 224 239 b0 then
      match s1 with
      | String c1 (String c2 _) =>
        let b1 := byte c1 in
        let b2 := byte c2 in
        let lo := if b0 =? 224 then 160 else 128 in
        let hi := if b0 =? 237 then 159 else 191 in
        if between lo hi b1 && cont b2
        then (Z.lor (Z.shiftl (Z.land b0 15) 12)
                (Z.lor (Z.shiftl (Z.land b1 63) 6) (Z.land b2 63)), 3)
        else (RuneError, 1)
      | _ => (RuneError, 1)
      end
    else if between 240 244 b0 then
      match s1 with
      | String c1 (String c2 (String c3 _)) =>
        let b1 := byte c1 in
        let b2 := byte c2 in
        let b3 := byte c3 in
        let lo := if b0 =? 240 then 144 else 128 in
        let hi := if b0 =? 244 then 143 else 191 in
        if between lo hi b1 && cont b2 && cont b3
        then (Z.lor (Z.shiftl (Z.land b0 7) 18)
                (Z.lor (Z.shiftl (Z.land b1 63) 12)
                   (Z.lor (Z.shiftl (Z.land b2 63) 6) (Z.land b3 63))), 4)
        else (RuneError, 1)
      | _ => (RuneError, 1)
      end
    else (RuneError, 1)
  end.

(** [string(r)]: the UTF-8 encoding of a rune, that of [RuneError] for a
    value that is no Unicode code point. *)
Definition EncodeRune (r : Z) : string :=
  let r := if (r <? 0) || (MaxRune <? r) || between 55296 57343 r
           then RuneError else r in
  if r <=? 127 then String (chr r) ""
  else if r <=? 2047 then
    String (chr (Z.lor 192 (Z.shiftr r 6)))
      (String (chr (Z.lor 128 (Z.land r 63))) "")
  else if r <=? 65535 then
    String (chr (Z.lor 224 (Z.shiftr r 12)))
      (String (chr (Z.lor 128 (Z.land (Z.shiftr r 6) 63)))
         (String (chr (Z.lor 128 (Z.land r 63))) ""))
  else
    String (chr (Z.lor 240 (Z.shiftr r 18)))
      (String (chr (Z.lor 128 (Z.land (Z.shiftr r 12) 63)))
         (String (chr (Z.lor 128 (Z.land (Z.shiftr r 6) 63)))
            (String (chr (Z.lor 128 (Z.land r 63))) ""))).

End utf8.

(** [str[n:]] for [n] within the string. *)
Fixpoint slice_from (n : nat) (str : string) : string :=
  match n, str with
  | O, _ => str
  | S n', String _ rest => slice_from n' rest
  | S _, EmptyString => EmptyString
  end.

Section Presentation.

(** The case table of package [unicode] beyond ASCII
    ([unicode.To(unicode.UpperCase, r)]); it is not part of cmd.go. *)
Variable To_UpperCase : Z -> Z.

(** The text of [auth.ErrInvalidToken.Error()], declared in package
    [auth]. *)
Variable ErrInvalidToken_Error : string.

Definition MaxASCII : Z := 127.

(** [unicode.ToUpper] *)
Definition ToUpper (r : Z) : Z :=
  if r <=? MaxASCII then
    if (97 <=? r) && (r <=? 122) then r - (97 - 65) else r
  else To_UpperCase r.

(** [upcaseInitial]: the loop body returns in its first iteration, where
    [i] is 0 and [v] the first rune of [str]. *)
Definition upcaseInitial (str : string) : string :=
  match str with
  | EmptyString => ""
  | String _ _ =>
    let i := O in
    let v := fst (utf8.DecodeRuneInString str) in
    (utf8.EncodeRune (ToUpper v) ++ slice_from (i + 1) str)%string
  end.

(** [err.Error()] for the errors that are no [*errors.Error]. *)
Definition Error_ (msg : string) : string := msg.

Definition formatErr (err : error) : string :=
  match err with
  | MicroError _ _ Detail _ => upcaseInitial Detail
  | ErrInvalidToken => upcaseInitial ErrInvalidToken_Error
  | OtherError msg => upcaseInitial (Error_ msg)
  end.

(** The presentation rule in the spec's words: the message is the detail of
    an error that carries one and the generic message of any other; its
    first character is upper-cased and the characters after it are kept. *)
Definition chosen_message (err : error) : string :=
  match err with
  | MicroError _ _ Detail _ => Detail
  | ErrInvalidToken => ErrInvalidToken_Error
  | OtherError msg => msg
  end.

Definition upcase_first_character (str : string) : string :=
  match str with
  | EmptyString => ""
  | String _ _ =>
    let '(first, width) := utf8.DecodeRuneInString str in
    (utf8.EncodeRune (ToUpper first) ++ slice_from (Z.to_nat width) str)%string
  end.

Definition presented_message (err : error) : string :=
  upcase_first_character (chosen_message err).

End Presentation.

(** The part of the case table below U+0100, for concrete runs: the
    lower-case letters of Latin-1 ([U+00E0..U+00FE] but the division sign)
    are 32 above their capitals; the capitals of the micro sign and of
    [U+00FF] lie outside Latin-1. *)
Definition Latin1_UpperCase (r : Z) : Z :=
  if utf8.between 224 254 r && negb (r =? 247) then r - 32
  else if r =? 181 then 924
  else if r =? 255 then 376
  else r.

(** ** [Before]: from the flags to the auth set-up *)

(** The values of the flags, [ctx.String(name)]. *)
Definition Flags := string -> string.

(** The options [Before] collects for [auth.DefaultAuth.Init].  The two
    keys set fields of [auth.Options] that no flow reads; they leave the
    fields kept in [Options] as they are. *)
Inductive BeforeOption :=
| Modelled (opt : Option)
| PublicKey (key : string)
| PrivateKey (key : string).

Definition applyBeforeOption (o : Options) (opt : BeforeOption) : Options :=
  match opt with
  | Modelled opt => applyOption o opt
  | PublicKey _ => o
  | PrivateKey _ => o
  end.

(** The slice [authOpts] as [Before] builds it, lines "setup auth" to
    "load the jwt private and public keys". *)
Definition authOpts (ctx : Flags) : list BeforeOption :=
  let authOpts := [] in
  let authOpts :=
    if len (ctx "namespace") >? 0
    then authOpts ++ [Modelled (auth_Issuer (ctx "namespace"))]
    else authOpts in
  let authOpts :=
    if (len (ctx "client_id") >? 0) || (len (ctx "client_secret") >? 0)
    then authOpts ++ [Modelled (Credentials (ctx "client_id") (ctx "client_secret"))]
    else authOpts in
  let authOpts :=
    if (len (ctx "public_key") >? 0) || (len (ctx "private_key") >? 0)
    then authOpts ++ [PublicKey (ctx "public_key"); PrivateKey (ctx "private_key")]
    else authOpts in
  authOpts.

(** [Before] from "setup auth" to "refresh the auth token": the options of
    the flags are installed, then the flow of the process is run. *)
Definition Before_setup_auth (X : Collaborators) (service : bool) (ctx : Flags)
  : M Startup :=
  (fun w => (Ret tt, mkWorld (fold_left applyBeforeOption (authOpts ctx)
                                (DefaultAuth w)) (trace w))) ;;
  Before_auth X service.

(** ** Reading a trace *)

(** The token requests made to the Auth Provider, oldest first. *)
Fixpoint exchanges (tr : list Event) : list (list TokenOption) :=
  match tr with
  | [] => []
  | EvToken opts :: tr' => opts :: exchanges tr'
  | _ :: tr' => exchanges tr'
  end.

(** The account requests made to the Auth Provider. *)
Fixpoint generations (tr : list Event) : list (string * list GenerateOption) :=
  match tr with
  | [] => []
  | EvGenerate name opts :: tr' => (name, opts) :: generations tr'
  | _ :: tr' => generations tr'
  end.

(** The tokens written to the Credential Store. *)
Fixpoint saves (tr : list Event) : list (option AccountToken) :=
  match tr with
  | [] => []
  | EvSave tok :: tr' => tok :: saves tr'
  | _ :: tr' => saves tr'
  end.

(** The warnings logged. *)
Fixpoint warnings (tr : list Event) : list string :=
  match tr with
  | [] => []
  | EvWarnf format :: tr' => format :: warnings tr'
  | _ :: tr' => warnings tr'
  end.

(** Installing a token, and a token with an issuer, in auth state. *)
Definition with_token (o : Options) (tok : option AccountToken) : Options :=
  mkOptions (ID o) (Secret o) tok (Issuer o).

Definition with_token_issuer (o : Options) (tok : option AccountToken)
  (ns : string) : Options :=
  mkOptions (ID o) (Secret o) tok ns.

(** ** The requests of the flows *)

(** The request of the CLI flow: refresh token, issuer, 24 hours. *)
Definition CLI_request_of (tok : AccountToken) (ns : string) : list TokenOption :=
  [WithToken (RefreshToken tok); WithTokenIssuer ns; WithExpiry (time.Hour * 24)].

(** The requests of the Service flow: an account of type and scope
    [service], then a token for its credentials, 1 hour. *)
Definition service_account_options : list GenerateOption :=
  [WithType "service"; WithScopes ["service"]].

Definition service_request (id secret : string) : list TokenOption :=
  [WithCredentials id secret; WithExpiry time.Hour].

(** What the Service flow adds to the trace up to its token request. *)
Definition service_prelude (X : Collaborators) (name : string) : list Event :=
  EvGenerate name service_account_options ::
  (if logger_V_Debug X
   then [EvDebugf "Auth [%v] Generated an auth account"]
   else []).

(** The requests of a tick: the refresh token for 10 minutes, and the
    credentials in auth state for 10 minutes. *)
Definition refresh_request (tok : AccountToken) : list TokenOption :=
  [WithToken (RefreshToken tok); WithExpiry (time.Minute * 10)].

Definition credential_request (o : Options) : list TokenOption :=
  [WithCredentials (ID o) (Secret o); WithExpiry (time.Minute * 10)].

Definition regenerating : Event :=
  EvWarnf "[Auth] Refresh token expired, regenerating using account credentials".

Definition refreshed : Event :=
  EvDebugf "Auth token refreshed, expires at %v".

(** ** Concrete collaborators *)

(** Collaborators whose configuration reads succeed: the environment is
    [dev] with issuer [dev-issuer], [persisted] is what [clitoken.Get]
    finds, the clock reads [now], [provider] answers the token requests,
    accounts are generated and tokens are saved without error. *)
Definition scripted (persisted : option AccountToken) (now : time.Time)
  (provider : list TokenOption -> option AccountToken * option error)
  : Collaborators :=
  mkCollaborators
    (mkEnv "dev", None)
    (fun _ => ("dev-issuer", None))
    (persisted, None)
    (fun _ => None)
    (fun _ => provider)
    (fun _ name _ => (Some (mkAccount name "s3cret"), None))
    (fun _ => now)
    (fun _ => "6f1d2c34-9a0b-4c5d-8e7f-001122334455")
    false.

(** A provider that answers refresh-token requests by [onRefresh] and
    the others by [onCredentials]. *)
Definition answering (onRefresh onCredentials : option AccountToken * option error)
  (opts : list TokenOption) : option AccountToken * option error :=
  match opts with
  | WithToken _ :: _ => onRefresh
  | _ => onCredentials
  end.

Definition fresh_token : AccountToken :=
  mkToken "a1" "r2" (1250 * time.Second).

Definition unauthorized : error := OtherError "unauthorized".

(** Auth state before any flow ran, and after a service set itself up. *)
Definition no_auth : Options := mkOptions "" "" None "micro".

Definition service_auth (tok : AccountToken) : Options :=
  mkOptions "svc-1" "s3cret" (Some tok) "micro".

(** Persisted tokens: one that cannot be refreshed and is valid for an
    hour at time 0; the spec's [dev] token, expired for 10 seconds at time
    100 s; one without refresh token at that time. *)
Definition lasting_without_refresh : AccountToken :=
  mkToken "a0" "" (3600 * time.Second).

Definition lasting : AccountToken :=
  mkToken "a0" "r1" (3600 * time.Second).

Definition expired : AccountToken :=
  mkToken "a0" "r1" (90 * time.Second).

Definition expired_without_refresh : AccountToken :=
  mkToken "a0" "" (90 * time.Second).

(** Providers: one that grants every request, one that refuses every
    request, one that has revoked the refresh token and grants credential
    requests, one that has revoked the refresh token and refuses the
    credentials. *)
Definition provider_ok := answering (Some fresh_token, None) (Some fresh_token, None).

Definition provider_down :=
  answering (None, Some unauthorized) (None, Some unauthorized).

Definition provider_revoked :=
  answering (None, Some ErrInvalidToken) (Some fresh_token, None).

Definition provider_revoked_down :=
  answering (None, Some ErrInvalidToken) (None, Some unauthorized).

(** Installed tokens, for a clock that reads 650 s: both expire at 700 s,
    within the minute, one has a refresh token and one has none. *)
Definition installed : AccountToken :=
  mkToken "a0" "r1" (700 * time.Second).

Definition installed_without_refresh : AccountToken :=
  mkToken "a0" "" (700 * time.Second).

(** A token that expires one nanosecond after the minute that follows
    time 0. *)
Definition barely_lasting : AccountToken :=
  mkToken "a0" "r1" (60 * time.Second + time.Nanosecond).

(** A provider that grants credential requests a token without refresh
    token. *)
Definition provider_without_refresh :=
  answering (Some fresh_token, None) (Some installed_without_refresh, None).

(** The world of a service that holds [tok]. *)
Definition service_world (tok : AccountToken) : World :=
  mkWorld (service_auth tok) [].

(** Collaborators like [scripted], but for one answer: the namespace of the
    environment cannot be read; the token cannot be saved; the clock reads
    [step] more at each event. *)
Definition read_only : error := OtherError "config is read-only".

Definition no_namespace : error := OtherError "namespace not found".

Definition without_namespace (persisted : option AccountToken) : Collaborators :=
  mkCollaborators
    (mkEnv "dev", None)
    (fun _ => ("", Some no_namespace))
    (persisted, None)
    (fun _ => None)
    (fun _ => provider_ok)
    (fun _ name _ => (Some (mkAccount name "s3cret"), None))
    (fun _ => 0)
    (fun _ => "6f1d2c34-9a0b-4c5d-8e7f-001122334455")
    false.

Definition unsaved (persisted : option AccountToken) (now : time.Time)
  : Collaborators :=
  mkCollaborators
    (mkEnv "dev", None)
    (fun _ => ("dev-issuer", None))
    (persisted, None)
    (fun _ => Some read_only)
    (fun _ => provider_ok)
    (fun _ name _ => (Some (mkAccount name "s3cret"), None))
    (fun _ => now)
    (fun _ => "6f1d2c34-9a0b-4c5d-8e7f-001122334455")
    false.

Definition clocked (persisted : option AccountToken) (step : time.Duration)
  (provider : list TokenOption -> option AccountToken * option error)
  : Collaborators :=
  mkCollaborators
    (mkEnv "dev", None)
    (fun _ => ("dev-issuer", None))
    (persisted, None)
    (fun _ => None)
    (fun _ => provider)
    (fun _ name _ => (Some (mkAccount name "s3cret"), None))
    (fun tr => step * Z.of_nat (List.length tr))
    (fun _ => "6f1d2c34-9a0b-4c5d-8e7f-001122334455")
    false.

(** Flags: none set; the defaults of a server, with the namespace
    [micro]; those with both credentials; those with the ID alone. *)
Definition no_flags : Flags := fun _ => "".

Definition default_flags : Flags :=
  fun name => if String.eqb name "namespace" then "micro" else "".

Definition credential_flags : Flags :=
  fun name =>
    if String.eqb name "namespace" then "micro"
    else if String.eqb name "client_id" then "svc-1"
    else if String.eqb name "client_secret" then "s3cret"
    else "".

Definition id_flags : Flags :=
  fun name =>
    if String.eqb name "namespace" then "micro"
    else if String.eqb name "client_id" then "svc-1"
    else "".

(** The world a CLI session starts in. *)
Definition cli_world : World := mkWorld no_auth [].

(** The detail [U+00E9 'a'], whose first character takes two bytes. *)
Definition e_acute_a : string :=
  String (utf8.chr 195) (String (utf8.chr 169) "a").

(** * Properties *)

(** ** Error presentation *)

Lemma append_cancel_l (a b c : string) :
  (a ++ b)%string = (a ++ c)%string -> b = c.
Proof.
  induction a as [|x a IH]; simpl; intros H.
  - exact H.
  - injection H as H. auto.
Qed.

Lemma byte_lt_256 (c : ascii) : 0 <= utf8.byte c < 256.
Proof.
  unfold utf8.byte. destruct c as [[] [] [] [] [] [] [] []]; vm_compute;
    split; congruence.
Qed.

(** [formatErr] presents the detail of a [*errors.Error] and the message
    of any other error, through [upcaseInitial]. *)
Lemma formatErr_chooses up txt (err : error) :
  formatErr up txt err = upcaseInitial up (chosen_message txt err).
Proof. destruct err; reflexivity. Qed.

(** When the chosen message starts with an ASCII character, the code
    follows the presentation rule. *)
Lemma upcaseInitial_ascii_initial up (c : ascii) (rest : string) :
  utf8.byte c < 128 ->
  upcaseInitial up (String c rest) =
    String (utf8.chr (ToUpper up (utf8.byte c))) rest
  /\ upcaseInitial up (String c rest) = upcase_first_character up (String c rest).
Proof.
  intros Hc. pose proof (byte_lt_256 c) as Hb.
  unfold upcaseInitial, upcase_first_character, utf8.DecodeRuneInString.
  destruct (Z.ltb_spec (utf8.byte c) 128) as [_|]; [|lia].
  cbn [fst Z.to_nat Pos.to_nat Pos.iter_op Nat.add slice_from].
  assert (Hu : 0 <= ToUpper up (utf8.byte c) <= 127).
  { unfold ToUpper, MaxASCII.
    destruct (Z.leb_spec (utf8.byte c) 127); [|lia].
    destruct ((97 <=? utf8.byte c) && (utf8.byte c <=? 122)) eqn:E; [|lia].
    apply andb_true_iff in E. lia. }
  unfold utf8.EncodeRune, utf8.MaxRune, utf8.between, utf8.RuneError.
  set (u := ToUpper up (utf8.byte c)) in *.
  replace (u <? 0) with false by (symmetry; apply Z.ltb_ge; lia).
  replace (1114111 <? u) with false by (symmetry; apply Z.ltb_ge; lia).
  replace (55296 <=? u) with false by (symmetry; apply Z.leb_gt; lia).
  cbn [orb andb].
  replace (u <=? 127) with true by (symmetry; apply Z.leb_le; lia).
  split; reflexivity.
Qed.

Lemma formatErr_ascii_initial up txt (err : error) (c : ascii) (rest : string) :
  chosen_message txt err = String c rest ->
  utf8.byte c < 128 ->
  formatErr up txt err = presented_message up txt err.
Proof.
  intros Hm Hc. rewrite formatErr_chooses. unfold presented_message.
  rewrite Hm. apply upcaseInitial_ascii_initial, Hc.
Qed.

(** The two messages of the spec, whatever the case table beyond ASCII. *)
Lemma formatErr_account_not_found up txt id code status :
  formatErr up txt (MicroError id code "account not found" status)
  = "Account not found".
Proof. reflexivity. Qed.

Lemma formatErr_io_timeout up txt :
  formatErr up txt (OtherError "io timeout") = "Io timeout".
Proof. reflexivity. Qed.

(** An error with no message is presented by the empty string. *)
Lemma formatErr_empty up txt :
  formatErr up txt (OtherError "") = "".
Proof. reflexivity. Qed.

(** C2: the presented message is the detail of an error that carries one and
    the generic message otherwise, with the first character upper-cased and
    every other character unchanged.  At the detail [e_acute_a], whose first
    character takes two bytes, [formatErr] keeps the second byte of that
    character after its capital: the result is not the presented message of
    the rule, whatever the case table. *)
Theorem formatErr_multibyte_initial :
  forall (up : Z -> Z) (txt : string),
    let err := MicroError "" 0 e_acute_a "" in
    formatErr up txt err
      = (utf8.EncodeRune (up 233) ++ String (utf8.chr 169) "a")%string
    /\ presented_message up txt err = (utf8.EncodeRune (up 233) ++ "a")%string
    /\ formatErr up txt err <> presented_message up txt err.
Proof.
  intros up txt err.
  assert (H1 : formatErr up txt err
               = (utf8.EncodeRune (up 233) ++ String (utf8.chr 169) "a")%string)
    by reflexivity.
  assert (H2 : presented_message up txt err
               = (utf8.EncodeRune (up 233) ++ "a")%string) by reflexivity.
  repeat split; trivial.
  rewrite H1, H2. intros H. apply append_cancel_l in H. discriminate H.
Qed.

(** With the Latin-1 part of the case table, the bytes of that result:
    the capital [C3 89], the stray [A9], then ['a']. *)
Lemma formatErr_e_acute_bytes :
  map utf8.byte (list_ascii_of_string
    (formatErr Latin1_UpperCase "" (MicroError "" 0 e_acute_a "")))
  = [195; 137; 169; 97].
Proof. reflexivity. Qed.

(** ** Traces *)

Lemma exchanges_app (a b : list Event) :
  exchanges (a ++ b) = exchanges a ++ exchanges b.
Proof.
  induction a as [|ev a IH]; [reflexivity|].
  destruct ev; cbn; rewrite IH; reflexivity.
Qed.

Lemma saves_app (a b : list Event) : saves (a ++ b) = saves a ++ saves b.
Proof.
  induction a as [|ev a IH]; [reflexivity|].
  destruct ev; cbn; rewrite IH; reflexivity.
Qed.

Lemma warnings_app (a b : list Event) :
  warnings (a ++ b) = warnings a ++ warnings b.
Proof.
  induction a as [|ev a IH]; [reflexivity|].
  destruct ev; cbn; rewrite IH; reflexivity.
Qed.

Lemma exchanges_ticks (n : nat) : exchanges (repeat EvTick n) = [].
Proof. induction n as [|n IH]; [reflexivity|exact IH]. Qed.

Lemma generations_app (a b : list Event) :
  generations (a ++ b) = generations a ++ generations b.
Proof.
  induction a as [|ev a IH]; [reflexivity|].
  destruct ev; cbn; rewrite IH; reflexivity.
Qed.

(** ** The CLI flow *)

Section CLI_flow.

Variable X : Collaborators.
Variables (env : Env) (ns : string) (tok : AccountToken).

(** The configuration is read without error and holds a token. *)
Hypothesis env_found : util_GetEnv X = (env, None).
Hypothesis ns_found : namespace_Get X (Name env) = (ns, None).
Hypothesis tok_found : clitoken_Get X = (Some tok, None).

Lemma len_zero (s : string) : (len s =? 0) = true <-> s = "".
Proof.
  unfold len. destruct s; simpl; split; intros H; try reflexivity;
    try discriminate H.
Qed.

Lemma len_nonzero (s : string) : s <> "" -> (len s =? 0) = false.
Proof.
  intros H. destruct (len s =? 0) eqn:E; [|reflexivity].
  apply len_zero in E. contradiction.
Qed.

Ltac cli_start :=
  unfold setupAuthForCLI; rewrite env_found, ns_found, tok_found;
  unfold bind, deref, ret.

(** C10: when the persisted token has no refresh token, the flow returns
    success at once: the world is as it was, so no token is installed, the
    Auth Provider is not called and nothing is saved; start-up goes on.  The
    expiry of the token plays no part. *)
Theorem CLI_without_refresh_token (w : World) :
  RefreshToken tok = "" ->
  setupAuthForCLI X w = (Ret None, w)
  /\ Before_auth X false w = (Ret Started, w).
Proof.
  intros Hrt.
  assert (H : setupAuthForCLI X w = (Ret None, w)).
  { cli_start. rewrite Hrt. reflexivity. }
  split; [exact H|]. unfold Before_auth, bind. rewrite H. reflexivity.
Qed.

(** C4, amended: a persisted token that has a refresh token and expires
    more than a minute from now is installed as it is, with the issuer of
    the environment, and no event is added to the trace: no call of the
    Auth Provider, no write to the Credential Store. *)
Theorem CLI_valid_token_installed (w : World) :
  RefreshToken tok <> "" ->
  time_Now X (trace w) < Expiry tok - time.Minute ->
  setupAuthForCLI X w
  = (Ret None, mkWorld (with_token_issuer (DefaultAuth w) (Some tok) ns) (trace w)).
Proof.
  intros Hrt Hnow. cli_start. rewrite (len_nonzero _ Hrt).
  unfold Now, time.Before, time.Add.
  destruct (Z.ltb_spec (time_Now X (trace w)) (Expiry tok + time.Minute * -1))
    as [_|Hge]; [reflexivity|].
  unfold time.Minute, time.Second, time.Nanosecond in *. lia.
Qed.

(** C5, amended: a persisted token that has a refresh token and expires
    within a minute, or has expired, leads to exactly one token request: the
    refresh token, the issuer of the environment, 24 hours.  When the
    request succeeds, its token is installed with that issuer and saved,
    once, and the flow returns what saving returns. *)
Theorem CLI_refresh_near_expiry (w : World) :
  RefreshToken tok <> "" ->
  Expiry tok - time.Minute <= time_Now X (trace w) ->
  exists out w' new,
    setupAuthForCLI X w = (out, w')
    /\ trace w' = trace w ++ new
    /\ exchanges new = [(CLI_request_of tok ns)]
    /\ (forall tok' : option AccountToken,
          auth_Token X (trace w) (CLI_request_of tok ns) = (tok', None) ->
          out = Ret (clitoken_Save X tok')
          /\ DefaultAuth w' = with_token_issuer (DefaultAuth w) tok' ns
          /\ saves new = [tok']).
Proof.
  intros Hrt Hnow. cli_start. rewrite (len_nonzero _ Hrt).
  unfold Now, time.Before, time.Add.
  destruct (Z.ltb_spec (time_Now X (trace w)) (Expiry tok + time.Minute * -1))
    as [Hlt|_].
  { unfold time.Minute, time.Second, time.Nanosecond in *. lia. }
  unfold Token_. change [WithToken (RefreshToken tok); WithTokenIssuer ns;
            WithExpiry (time.Hour * 24)] with (CLI_request_of tok ns).
  destruct (auth_Token X (trace w) (CLI_request_of tok ns)) as [tok' [e|]] eqn:Hrsp.
  - eexists _, _, [EvToken (CLI_request_of tok ns)].
    split; [reflexivity|]. split; [reflexivity|]. split; [reflexivity|].
    intros tok'' Hok. discriminate Hok.
  - eexists _, _, [EvToken (CLI_request_of tok ns); EvSave tok'].
    unfold auth_Init, Save. cbn.
    split; [reflexivity|]. split; [rewrite <- app_assoc; reflexivity|].
    split; [reflexivity|]. intros tok'' [= <-]. repeat split.
Qed.

(** C9: when the refresh-token request fails, the flow returns success;
    auth state is as it was, so no token is installed, and the trace gains
    the request alone: nothing is saved.  Start-up goes on. *)
Theorem CLI_refresh_failure_degrades (w : World)
  (ptok : option AccountToken) (e : error) :
  RefreshToken tok <> "" ->
  Expiry tok - time.Minute <= time_Now X (trace w) ->
  auth_Token X (trace w) (CLI_request_of tok ns) = (ptok, Some e) ->
  let w' := mkWorld (DefaultAuth w) (trace w ++ [EvToken (CLI_request_of tok ns)]) in
  setupAuthForCLI X w = (Ret None, w')
  /\ Before_auth X false w = (Ret Started, w')
  /\ saves (trace w') = saves (trace w).
Proof.
  intros Hrt Hnow Hrsp w'.
  assert (H : setupAuthForCLI X w = (Ret None, w')).
  { cli_start. rewrite (len_nonzero _ Hrt).
    unfold Now, time.Before, time.Add.
    destruct (Z.ltb_spec (time_Now X (trace w)) (Expiry tok + time.Minute * -1))
      as [Hlt|_].
    { unfold time.Minute, time.Second, time.Nanosecond in *. lia. }
    unfold Token_. change [WithToken (RefreshToken tok); WithTokenIssuer ns;
            WithExpiry (time.Hour * 24)] with (CLI_request_of tok ns). rewrite Hrsp. reflexivity. }
  split; [exact H|]. split.
  - unfold Before_auth, bind. rewrite H. reflexivity.
  - subst w'. cbn [trace]. rewrite saves_app. apply app_nil_r.
Qed.

End CLI_flow.

(** *** Runs of the CLI flow *)

Lemma CLI_without_refresh_token_witness :
  setupAuthForCLI (scripted (Some lasting_without_refresh) 0 provider_ok) cli_world
  = (Ret None, cli_world)
  /\ Before_auth (scripted (Some lasting_without_refresh) 0 provider_ok) false
       cli_world
     = (Ret Started, cli_world).
Proof.
  apply (CLI_without_refresh_token
           (scripted (Some lasting_without_refresh) 0 provider_ok)
           (mkEnv "dev") "dev-issuer" lasting_without_refresh);
    reflexivity.
Defined.

Lemma CLI_valid_token_installed_witness :
  setupAuthForCLI (scripted (Some lasting) 0 provider_ok) cli_world
  = (Ret None, mkWorld (mkOptions "" "" (Some lasting) "dev-issuer") []).
Proof.
  apply (CLI_valid_token_installed (scripted (Some lasting) 0 provider_ok)
           (mkEnv "dev") "dev-issuer" lasting);
    try reflexivity.
  discriminate.
Defined.

(** C4 as stated fails on a token without refresh token: it is valid for an
    hour, and the flow leaves auth state without a token. *)
Lemma CLI_valid_token_without_refresh_token_not_installed :
  clitoken_Get (scripted (Some lasting_without_refresh) 0 provider_ok)
  = (Some lasting_without_refresh, None)
  /\ time_Now (scripted (Some lasting_without_refresh) 0 provider_ok)
       (trace cli_world)
     < Expiry lasting_without_refresh - time.Minute
  /\ Token (DefaultAuth (snd (setupAuthForCLI
       (scripted (Some lasting_without_refresh) 0 provider_ok) cli_world)))
     = None.
Proof. repeat split. Qed.

(** The spec's scenario: [dev] holds a token with refresh token [r1] that
    expired 10 seconds ago. *)
Lemma CLI_refresh_near_expiry_witness :
  exists out w' new,
    setupAuthForCLI (scripted (Some expired) (100 * time.Second) provider_ok)
      cli_world = (out, w')
    /\ trace w' = trace cli_world ++ new
    /\ exchanges new
       = [[WithToken "r1"; WithTokenIssuer "dev-issuer";
           WithExpiry (time.Hour * 24)]]
    /\ (forall tok' : option AccountToken,
          auth_Token (scripted (Some expired) (100 * time.Second) provider_ok)
            (trace cli_world)
            [WithToken "r1"; WithTokenIssuer "dev-issuer";
             WithExpiry (time.Hour * 24)] = (tok', None) ->
          out = Ret (clitoken_Save
                       (scripted (Some expired) (100 * time.Second) provider_ok)
                       tok')
          /\ DefaultAuth w'
             = with_token_issuer (DefaultAuth cli_world) tok' "dev-issuer"
          /\ saves new = [tok']).
Proof.
  apply (CLI_refresh_near_expiry
           (scripted (Some expired) (100 * time.Second) provider_ok)
           (mkEnv "dev") "dev-issuer" expired);
    try reflexivity.
  - discriminate.
  - vm_compute. discriminate.
Defined.

(** C5 as stated fails on a token without refresh token: it expired 10
    seconds ago, and the flow makes no token request. *)
Lemma CLI_expired_token_without_refresh_token_not_refreshed :
  clitoken_Get
    (scripted (Some expired_without_refresh) (100 * time.Second) provider_ok)
  = (Some expired_without_refresh, None)
  /\ Expiry expired_without_refresh
     <= time_Now
          (scripted (Some expired_without_refresh) (100 * time.Second) provider_ok)
          (trace cli_world) + time.Minute
  /\ exchanges (trace (snd (setupAuthForCLI
       (scripted (Some expired_without_refresh) (100 * time.Second) provider_ok)
       cli_world)))
     = [].
Proof.
  split; [reflexivity|]. split; [|reflexivity]. vm_compute. discriminate.
Qed.

Lemma CLI_refresh_failure_degrades_witness :
  setupAuthForCLI (scripted (Some expired) (100 * time.Second) provider_down)
    cli_world
  = (Ret None,
     mkWorld no_auth
       [EvToken [WithToken "r1"; WithTokenIssuer "dev-issuer";
                 WithExpiry (time.Hour * 24)]])
  /\ Before_auth (scripted (Some expired) (100 * time.Second) provider_down)
       false cli_world
     = (Ret Started,
        mkWorld no_auth
          [EvToken [WithToken "r1"; WithTokenIssuer "dev-issuer";
                    WithExpiry (time.Hour * 24)]])
  /\ saves [EvToken [WithToken "r1"; WithTokenIssuer "dev-issuer";
                     WithExpiry (time.Hour * 24)]]
     = saves [].
Proof.
  apply (CLI_refresh_failure_degrades
           (scripted (Some expired) (100 * time.Second) provider_down)
           (mkEnv "dev") "dev-issuer" expired
           (eq_refl _) (eq_refl _) (eq_refl _)
           cli_world None unauthorized).
  - discriminate.
  - vm_compute. discriminate.
  - reflexivity.
Defined.

(** ** The Service flow *)

Section Service_flow.

Variable X : Collaborators.

(** C6: without account credentials in auth state, the Service flow asks
    for one account, named by a fresh identifier, of type and scope
    [service].  When that fails the flow returns the error, which is fatal
    to start-up, with no token request.  When it succeeds the flow goes on
    to one token request, with the credentials of the account and 1 hour;
    when that succeeds too, the credentials and the token are installed. *)
Theorem service_self_provisions (w : World) :
  ID (DefaultAuth w) = "" \/ Secret (DefaultAuth w) = "" ->
  let name := uuid_New X (trace w) in
  let pre := service_prelude X name in
  (forall (pacc : option Account) (e : error),
      auth_Generate X (trace w) name service_account_options = (pacc, Some e) ->
      let w' := mkWorld (DefaultAuth w)
                  (trace w ++ [EvGenerate name service_account_options]) in
      setupAuthForService X w = (Ret (Some e), w')
      /\ Before_auth X true w = (Ret (Fatal e), w'))
  /\ (forall (acc : Account) (token : option AccountToken),
      auth_Generate X (trace w) name service_account_options = (Some acc, None) ->
      let request := service_request (acc_ID acc) (acc_Secret acc) in
      auth_Token X (trace w ++ pre) request = (token, None) ->
      setupAuthForService X w
      = (Ret None,
         mkWorld (mkOptions (acc_ID acc) (acc_Secret acc) token
                    (Issuer (DefaultAuth w)))
           (trace w ++ pre ++ [EvToken request]))
      /\ generations (pre ++ [EvToken request]) = [(name, service_account_options)]
      /\ exchanges (pre ++ [EvToken request]) = [request]).
Proof.
  intros Hcreds name pre.
  assert (Htest : (len (ID (DefaultAuth w)) =? 0)
                  || (len (Secret (DefaultAuth w)) =? 0) = true).
  { apply orb_true_iff. destruct Hcreds as [H|H]; [left|right];
      apply len_zero; exact H. }
  split.
  - intros pacc e Hgen w'.
    assert (H : setupAuthForService X w = (Ret (Some e), w')).
    { unfold setupAuthForService, bind, auth_Options. rewrite Htest.
      unfold uuid_New_String, Generate. fold name.
      change [WithType "service"; WithScopes ["service"]]
        with service_account_options.
      rewrite Hgen. reflexivity. }
    split; [exact H|]. unfold Before_auth, bind. rewrite H. reflexivity.
  - intros acc token Hgen request Htok. split; [|split].
    + unfold setupAuthForService, bind, auth_Options. rewrite Htest.
      unfold uuid_New_String, Generate. fold name.
      change [WithType "service"; WithScopes ["service"]]
        with service_account_options.
      rewrite Hgen. unfold firstToken, bind, deref, ret, Token_, Debugf, emit.
      subst pre request. unfold service_prelude, service_request in *.
      destruct (logger_V_Debug X); cbn [trace DefaultAuth] in *;
        rewrite <- ?app_assoc in *; cbn [app] in *; rewrite Htok;
        reflexivity.
    + subst pre. unfold service_prelude. destruct (logger_V_Debug X); reflexivity.
    + subst pre. unfold service_prelude. destruct (logger_V_Debug X); reflexivity.
Qed.

(** With credentials in auth state the flow asks for no account. *)
Lemma service_with_credentials (w : World) (token : option AccountToken) :
  ID (DefaultAuth w) <> "" ->
  Secret (DefaultAuth w) <> "" ->
  let request := service_request (ID (DefaultAuth w)) (Secret (DefaultAuth w)) in
  auth_Token X (trace w) request = (token, None) ->
  setupAuthForService X w
  = (Ret None, mkWorld (with_token (DefaultAuth w) token)
                 (trace w ++ [EvToken request])).
Proof.
  intros Hid Hsec request Htok.
  unfold setupAuthForService, bind, auth_Options.
  rewrite (len_nonzero _ Hid), (len_nonzero _ Hsec). cbn [orb].
  subst request. unfold service_request in Htok.
  unfold firstToken, bind, Token_. rewrite Htok. reflexivity.
Qed.

End Service_flow.

Lemma service_self_provisions_witness :
  (forall (pacc : option Account) (e : error),
      auth_Generate (scripted None 0 provider_ok) []
        "6f1d2c34-9a0b-4c5d-8e7f-001122334455" service_account_options
      = (pacc, Some e) ->
      setupAuthForService (scripted None 0 provider_ok) cli_world
      = (Ret (Some e),
         mkWorld no_auth
           [EvGenerate "6f1d2c34-9a0b-4c5d-8e7f-001122334455"
              service_account_options])
      /\ Before_auth (scripted None 0 provider_ok) true cli_world
         = (Ret (Fatal e),
            mkWorld no_auth
              [EvGenerate "6f1d2c34-9a0b-4c5d-8e7f-001122334455"
                 service_account_options]))
  /\ (forall (acc : Account) (token : option AccountToken),
      auth_Generate (scripted None 0 provider_ok) []
        "6f1d2c34-9a0b-4c5d-8e7f-001122334455" service_account_options
      = (Some acc, None) ->
      auth_Token (scripted None 0 provider_ok)
        [EvGenerate "6f1d2c34-9a0b-4c5d-8e7f-001122334455"
           service_account_options]
        (service_request (acc_ID acc) (acc_Secret acc)) = (token, None) ->
      setupAuthForService (scripted None 0 provider_ok) cli_world
      = (Ret None,
         mkWorld (mkOptions (acc_ID acc) (acc_Secret acc) token "micro")
           [EvGenerate "6f1d2c34-9a0b-4c5d-8e7f-001122334455"
              service_account_options;
            EvToken (service_request (acc_ID acc) (acc_Secret acc))])
      /\ generations
           [EvGenerate "6f1d2c34-9a0b-4c5d-8e7f-001122334455"
              service_account_options;
            EvToken (service_request (acc_ID acc) (acc_Secret acc))]
         = [("6f1d2c34-9a0b-4c5d-8e7f-001122334455", service_account_options)]
      /\ exchanges
           [EvGenerate "6f1d2c34-9a0b-4c5d-8e7f-001122334455"
              service_account_options;
            EvToken (service_request (acc_ID acc) (acc_Secret acc))]
         = [service_request (acc_ID acc) (acc_Secret acc)]).
Proof.
  apply (service_self_provisions (scripted None 0 provider_ok) cli_world).
  left. reflexivity.
Defined.

(** The run of the spec's scenario: the generated account is installed
    with a 1-hour token request. *)
Lemma service_self_provisions_run :
  setupAuthForService (scripted None 0 provider_ok) cli_world
  = (Ret None,
     mkWorld
       (mkOptions "6f1d2c34-9a0b-4c5d-8e7f-001122334455" "s3cret"
          (Some fresh_token) "micro")
       [EvGenerate "6f1d2c34-9a0b-4c5d-8e7f-001122334455"
          [WithType "service"; WithScopes ["service"]];
        EvToken [WithCredentials "6f1d2c34-9a0b-4c5d-8e7f-001122334455" "s3cret";
                 WithExpiry (3600 * time.Second)]]).
Proof. reflexivity. Qed.

(** ** The Refresh Loop *)

Section Refresh_loop.

Variable X : Collaborators.
Variable tok : AccountToken.

(** A tick on which the token is not close to expiring changes nothing. *)
Lemma tick_idle (w : World) :
  Token (DefaultAuth w) = Some tok ->
  time.Unix (Expiry tok) > time.Unix (time_Now X (trace w) + time.Minute) ->
  tick X w = (Ret tt, w).
Proof.
  intros Htok Hfar. unfold tick, bind, auth_Options, ret, Now, time.Add.
  rewrite Htok. cbn [deref ret].
  destruct (Z.gtb_spec (time.Unix (Expiry tok))
              (time.Unix (time_Now X (trace w) + time.Minute))) as [_|Hle];
    [reflexivity|lia].
Qed.

(** A tick on which the token is close to expiring starts, whatever
    follows, by the refresh-token request. *)
Lemma tick_due (w : World) :
  Token (DefaultAuth w) = Some tok ->
  time.Unix (Expiry tok) <= time.Unix (time_Now X (trace w) + time.Minute) ->
  exists out w' rest,
    tick X w = (out, w')
    /\ trace w' = trace w ++ EvToken (refresh_request tok) :: rest.
Proof.
  intros Htok Hdue. unfold tick, bind, auth_Options, ret, Now, time.Add.
  rewrite Htok. cbn [deref ret].
  destruct (Z.gtb_spec (time.Unix (Expiry tok))
              (time.Unix (time_Now X (trace w) + time.Minute))) as [Hgt|_];
    [lia|].
  unfold Token_. change [WithToken (RefreshToken tok); WithExpiry (time.Minute * 10)]
    with (refresh_request tok).
  destruct (auth_Token X (trace w) (refresh_request tok)) as [p [e|]].
  - destruct e; cbn [is_ErrInvalidToken].
    + unfold Warnf, Debugf, emit, auth_Init, deref, ret, panic.
      cbn [trace DefaultAuth].
      match goal with
      | |- context [auth_Token X ?t ?r] =>
        destruct (auth_Token X t r) as [[t'|] e']
      end; eexists _, _, _; (split; [reflexivity|]); cbn [trace];
        rewrite <- ?app_assoc; reflexivity.
    + unfold Warnf, emit. eexists _, _, _; split; [reflexivity|].
      cbn [trace]. rewrite <- app_assoc. reflexivity.
    + unfold Warnf, emit. eexists _, _, _; split; [reflexivity|].
      cbn [trace]. rewrite <- app_assoc. reflexivity.
  - cbn [is_ErrInvalidToken]. unfold Debugf, emit, auth_Init, deref, ret, panic.
    destruct p; eexists _, _, _; (split; [reflexivity|]); cbn [trace];
      rewrite <- ?app_assoc; reflexivity.
Qed.

(** Ticks on which the token is never close to expiring add ticks to the
    trace and nothing else. *)
Lemma ticks_idle (n : nat) : forall w : World,
  Token (DefaultAuth w) = Some tok ->
  (forall k : nat, (1 <= k <= n)%nat ->
     time.Unix (Expiry tok)
     > time.Unix (time_Now X (trace w ++ repeat EvTick k) + time.Minute)) ->
  ticks X n w = (Ret tt, mkWorld (DefaultAuth w) (trace w ++ repeat EvTick n)).
Proof.
  induction n as [|n IH]; intros w Htok Hfar.
  - destruct w as [o tr]. cbn. rewrite app_nil_r. reflexivity.
  - cbn [ticks]. unfold bind at 1. unfold emit.
    set (w1 := mkWorld (DefaultAuth w) (trace w ++ [EvTick])).
    unfold bind.
    rewrite (tick_idle w1); [|exact Htok|].
    + rewrite (IH w1); [|exact Htok|].
      * subst w1. cbn [DefaultAuth trace repeat]. rewrite <- app_assoc.
        reflexivity.
      * intros k Hk. subst w1. cbn [trace]. rewrite <- app_assoc.
        apply (Hfar (S k)). lia.
    + subst w1. cbn [trace]. apply (Hfar 1%nat). lia.
Qed.

(** C8, amended: on a tick the expiry of the installed token and the
    instant a minute from now are compared in whole seconds.  When the
    expiry is the later, the tick changes nothing; otherwise the tick starts
    by the refresh-token request, for 10 minutes.  A loop whose ticks all
    find the expiry later adds ticks to the trace and no request. *)
Theorem tick_exchanges_iff_due (w : World) :
  Token (DefaultAuth w) = Some tok ->
  (time.Unix (Expiry tok) > time.Unix (time_Now X (trace w) + time.Minute) ->
     tick X w = (Ret tt, w))
  /\ (time.Unix (Expiry tok) <= time.Unix (time_Now X (trace w) + time.Minute) ->
      exists out w' rest,
        tick X w = (out, w')
        /\ trace w'
           = trace w
             ++ EvToken [WithToken (RefreshToken tok);
                         WithExpiry (10 * time.Minute)] :: rest)
  /\ (forall n : nat,
      (forall k : nat, (1 <= k <= n)%nat ->
         time.Unix (Expiry tok)
         > time.Unix (time_Now X (trace w ++ repeat EvTick k) + time.Minute)) ->
      exists w',
        refreshAuthToken X n w = (Ret Looping, w')
        /\ DefaultAuth w' = DefaultAuth w
        /\ trace w' = trace w ++ repeat EvTick n
        /\ exchanges (repeat EvTick n) = []).
Proof.
  intros Htok. split; [|split].
  - apply tick_idle, Htok.
  - apply tick_due, Htok.
  - intros n Hfar. unfold refreshAuthToken, bind, auth_Options.
    rewrite Htok, (ticks_idle n w Htok Hfar). eexists. split; [reflexivity|].
    repeat split. apply exchanges_ticks.
Qed.

(** When the expiry is a whole number of seconds, comparing in whole
    seconds is comparing the instants. *)
Lemma whole_second_expiry (now : time.Time) :
  Expiry tok mod time.Second = 0 ->
  (time.Unix (Expiry tok) > time.Unix (now + time.Minute)
   <-> Expiry tok > now + time.Minute).
Proof.
  unfold time.Unix, time.Minute, time.Second, time.Nanosecond.
  intros Hmod. apply Z.mod_divide in Hmod; [|lia].
  destruct Hmod as [q Hq]. rewrite Hq. rewrite Z.div_mul by lia.
  set (x := now + 60 * (1000000000 * 1)).
  pose proof (Z.div_mod x (1000000000 * 1) ltac:(lia)) as Hx.
  pose proof (Z.mod_pos_bound x (1000000000 * 1) ltac:(lia)) as Hb.
  split; intros H; nia.
Qed.

(** C7: when the refresh-token request of a tick fails by
    [ErrInvalidToken], the tick makes two token requests in all: that one,
    then one with the ID and secret in auth state, for 10 minutes.  When the
    second succeeds, its token is installed and the tick ends, the loop
    waiting for the next tick. *)
Theorem tick_regenerates (w : World) (p : option AccountToken) :
  Token (DefaultAuth w) = Some tok ->
  time.Unix (Expiry tok) <= time.Unix (time_Now X (trace w) + time.Minute) ->
  auth_Token X (trace w) (refresh_request tok) = (p, Some ErrInvalidToken) ->
  let credentials :=
    [WithCredentials (ID (DefaultAuth w)) (Secret (DefaultAuth w));
     WithExpiry (10 * time.Minute)] in
  let tr := trace w ++ [EvToken (refresh_request tok); regenerating] in
  (exists out w' new,
      tick X w = (out, w')
      /\ trace w' = trace w ++ new
      /\ exchanges new = [refresh_request tok; credentials])
  /\ (forall tok' : AccountToken,
      auth_Token X tr credentials = (Some tok', None) ->
      tick X w
      = (Ret tt, mkWorld (with_token (DefaultAuth w) (Some tok'))
                   (tr ++ [EvToken credentials; refreshed]))).
Proof.
  intros Htok Hdue Hrsp credentials tr.
  assert (Hrun : tick X w
    = match auth_Token X tr credentials with
      | (Some t, _) => (Ret tt, mkWorld (with_token (DefaultAuth w) (Some t))
                                  (tr ++ [EvToken credentials; refreshed]))
      | (None, _) => (Panic, mkWorld (DefaultAuth w)
                               (tr ++ [EvToken credentials]))
      end).
  { unfold tick, bind, auth_Options, ret, Now, time.Add.
    rewrite Htok. cbn [deref ret].
    destruct (Z.gtb_spec (time.Unix (Expiry tok))
                (time.Unix (time_Now X (trace w) + time.Minute))) as [Hgt|_];
      [lia|].
    unfold Token_.
    change [WithToken (RefreshToken tok); WithExpiry (time.Minute * 10)]
      with (refresh_request tok).
    rewrite Hrsp. cbn [is_ErrInvalidToken].
    unfold Warnf, Debugf, emit, auth_Init, deref, ret, panic.
    cbn [trace DefaultAuth].
    change (EvWarnf _) with regenerating.
    replace ((trace w ++ [EvToken (refresh_request tok)]) ++ [regenerating])
      with tr by (subst tr; rewrite <- app_assoc; reflexivity).
    change [WithCredentials (ID (DefaultAuth w)) (Secret (DefaultAuth w));
            WithExpiry (time.Minute * 10)] with credentials.
    destruct (auth_Token X tr credentials) as [[t|] e'].
    - cbn [trace DefaultAuth fold_left applyOption]. rewrite <- app_assoc.
      reflexivity.
    - reflexivity. }
  split.
  - rewrite Hrun. destruct (auth_Token X tr credentials) as [[t|] e'].
    + exists (Ret tt), (mkWorld (with_token (DefaultAuth w) (Some t))
                         (tr ++ [EvToken credentials; refreshed])),
        [EvToken (refresh_request tok); regenerating; EvToken credentials;
         refreshed].
      split; [reflexivity|]. split; [|reflexivity].
      subst tr. cbn [trace]. rewrite <- app_assoc. reflexivity.
    + exists Panic, (mkWorld (DefaultAuth w) (tr ++ [EvToken credentials])),
        [EvToken (refresh_request tok); regenerating; EvToken credentials].
      split; [reflexivity|]. split; [|reflexivity].
      subst tr. cbn [trace]. rewrite <- app_assoc. reflexivity.
  - intros tok' Hok. rewrite Hrun, Hok. reflexivity.
Qed.

(** C1: when the credential request that follows [ErrInvalidToken] fails,
    the loop should log the failure and keep the installed token for the
    next tick.  The code does not test the error of that request: it goes on
    to read the expiry of the token the request returned.  When that is nil
    the goroutine panics; otherwise that token replaces the installed one.
    Either way the only warning of the tick is that of the regeneration. *)
Theorem tick_regeneration_failure (w : World) (p p' : option AccountToken)
  (e : error) :
  Token (DefaultAuth w) = Some tok ->
  time.Unix (Expiry tok) <= time.Unix (time_Now X (trace w) + time.Minute) ->
  auth_Token X (trace w) (refresh_request tok) = (p, Some ErrInvalidToken) ->
  let credentials := credential_request (DefaultAuth w) in
  let tr := trace w ++ [EvToken (refresh_request tok); regenerating] in
  auth_Token X tr credentials = (p', Some e) ->
  tick X w
  = match p' with
    | None => (Panic, mkWorld (DefaultAuth w) (tr ++ [EvToken credentials]))
    | Some t => (Ret tt, mkWorld (with_token (DefaultAuth w) (Some t))
                           (tr ++ [EvToken credentials; refreshed]))
    end
  /\ warnings (snd (tick X w)).(trace)
     = warnings (trace w)
       ++ ["[Auth] Refresh token expired, regenerating using account credentials"].
Proof.
  intros Htok Hdue Hrsp credentials tr Hfail.
  assert (Hrun : tick X w
    = match p' with
      | None => (Panic, mkWorld (DefaultAuth w) (tr ++ [EvToken credentials]))
      | Some t => (Ret tt, mkWorld (with_token (DefaultAuth w) (Some t))
                             (tr ++ [EvToken credentials; refreshed]))
      end).
  { unfold tick, bind, auth_Options, ret, Now, time.Add.
    rewrite Htok. cbn [deref ret].
    destruct (Z.gtb_spec (time.Unix (Expiry tok))
                (time.Unix (time_Now X (trace w) + time.Minute))) as [Hgt|_];
      [lia|].
    unfold Token_.
    change [WithToken (RefreshToken tok); WithExpiry (time.Minute * 10)]
      with (refresh_request tok).
    rewrite Hrsp. cbn [is_ErrInvalidToken].
    unfold Warnf, Debugf, emit, auth_Init, deref, ret, panic.
    cbn [trace DefaultAuth].
    change (EvWarnf _) with regenerating.
    replace ((trace w ++ [EvToken (refresh_request tok)]) ++ [regenerating])
      with tr by (subst tr; rewrite <- app_assoc; reflexivity).
    change [WithCredentials (ID (DefaultAuth w)) (Secret (DefaultAuth w));
            WithExpiry (time.Minute * 10)] with credentials.
    rewrite Hfail. destruct p' as [t|].
    - cbn [trace DefaultAuth fold_left applyOption]. rewrite <- app_assoc.
      reflexivity.
    - reflexivity. }
  split; [exact Hrun|]. rewrite Hrun. subst tr.
  destruct p'; cbn [snd trace]; rewrite !warnings_app; cbn;
    rewrite ?app_nil_r; reflexivity.
Qed.

End Refresh_loop.

(** C3, amended: the loop returns at once, the world unchanged, when no
    token is installed; so a loop that changed the world started with a
    token installed, whatever its refresh token. *)
Theorem refresh_loop_needs_token :
  forall (X : Collaborators) (n : nat) (w : World),
    (Token (DefaultAuth w) = None ->
       refreshAuthToken X n w = (Ret Returned, w))
    /\ (snd (refreshAuthToken X n w) <> w ->
        exists tok : AccountToken, Token (DefaultAuth w) = Some tok).
Proof.
  intros X n w. split.
  - intros Hnone. unfold refreshAuthToken, bind, auth_Options.
    rewrite Hnone. reflexivity.
  - intros Hchanged. destruct (Token (DefaultAuth w)) as [t|] eqn:Htok.
    + exists t. reflexivity.
    + exfalso. apply Hchanged. unfold refreshAuthToken, bind, auth_Options.
      rewrite Htok. reflexivity.
Qed.

(** *** Runs of the Refresh Loop *)

Lemma tick_exchanges_iff_due_witness :
  tick (scripted None 0 provider_ok) (service_world installed)
  = (Ret tt, service_world installed)
  /\ exists w',
      refreshAuthToken (scripted None 0 provider_ok) 3 (service_world installed)
      = (Ret Looping, w')
      /\ DefaultAuth w' = service_auth installed
      /\ trace w' = [EvTick; EvTick; EvTick]
      /\ exchanges (repeat EvTick 3) = [].
Proof.
  destruct (tick_exchanges_iff_due (scripted None 0 provider_ok) installed
              (service_world installed) (eq_refl _)) as [Hidle [_ Hloop]].
  split.
  - apply Hidle. reflexivity.
  - apply (Hloop 3%nat). intros k _. reflexivity.
Defined.

(** C8 as stated fails within the second: the token expires later than a
    minute from now, and the tick makes the refresh-token request. *)
Lemma tick_exchanges_within_the_second :
  Token (DefaultAuth (service_world barely_lasting)) = Some barely_lasting
  /\ Expiry barely_lasting
     > time_Now (scripted None 0 provider_ok)
         (trace (service_world barely_lasting)) + time.Minute
  /\ exchanges (trace (snd (tick (scripted None 0 provider_ok)
                              (service_world barely_lasting))))
     = [[WithToken "r1"; WithExpiry (10 * time.Minute)]].
Proof. repeat split. Qed.

Lemma tick_regenerates_witness :
  tick (scripted None (650 * time.Second) provider_revoked)
    (service_world installed)
  = (Ret tt,
     mkWorld (service_auth fresh_token)
       [EvToken [WithToken "r1"; WithExpiry (10 * time.Minute)];
        regenerating;
        EvToken [WithCredentials "svc-1" "s3cret"; WithExpiry (10 * time.Minute)];
        refreshed]).
Proof.
  apply (tick_regenerates (scripted None (650 * time.Second) provider_revoked)
           installed (service_world installed) None).
  - reflexivity.
  - vm_compute. discriminate.
  - reflexivity.
  - reflexivity.
Defined.

Lemma tick_regeneration_failure_witness :
  tick (scripted None (650 * time.Second) provider_revoked_down)
    (service_world installed)
  = (Panic,
     mkWorld (service_auth installed)
       [EvToken [WithToken "r1"; WithExpiry (10 * time.Minute)];
        regenerating;
        EvToken [WithCredentials "svc-1" "s3cret"; WithExpiry (10 * time.Minute)]])
  /\ warnings
       (snd (tick (scripted None (650 * time.Second) provider_revoked_down)
               (service_world installed))).(trace)
     = ["[Auth] Refresh token expired, regenerating using account credentials"].
Proof.
  apply (tick_regeneration_failure
           (scripted None (650 * time.Second) provider_revoked_down)
           installed (service_world installed) None None unauthorized).
  - reflexivity.
  - vm_compute. discriminate.
  - reflexivity.
  - reflexivity.
Defined.

(** The loop on that input: its first tick panics. *)
Lemma refresh_loop_panics :
  refreshAuthToken (scripted None (650 * time.Second) provider_revoked_down) 1
    (service_world installed)
  = (Panic,
     mkWorld (service_auth installed)
       [EvTick;
        EvToken [WithToken "r1"; WithExpiry (10 * time.Minute)];
        regenerating;
        EvToken [WithCredentials "svc-1" "s3cret"; WithExpiry (10 * time.Minute)]]).
Proof. reflexivity. Qed.

(** By contrast, any other failure of the refresh-token request is logged
    and leaves the installed token in place. *)
Lemma refresh_loop_survives_other_errors :
  refreshAuthToken (scripted None (650 * time.Second) provider_down) 1
    (service_world installed)
  = (Ret Looping,
     mkWorld (service_auth installed)
       [EvTick;
        EvToken [WithToken "r1"; WithExpiry (10 * time.Minute)];
        EvWarnf "[Auth] Error refreshing token: %v"]).
Proof. reflexivity. Qed.

(** C3 as stated fails on a token without refresh token: the Service flow
    installs the one the provider grants, and the first tick of the loop
    that follows makes a refresh-token request with the empty refresh
    token. *)
Lemma refresh_loop_runs_without_refresh_token :
  Token (DefaultAuth (snd (setupAuthForService
    (scripted None (650 * time.Second) provider_without_refresh) cli_world)))
  = Some installed_without_refresh
  /\ RefreshToken installed_without_refresh = ""
  /\ exchanges (trace (snd (refreshAuthToken
       (scripted None (650 * time.Second) provider_without_refresh) 1
       (snd (setupAuthForService
          (scripted None (650 * time.Second) provider_without_refresh)
          cli_world)))))
     = [[WithCredentials "6f1d2c34-9a0b-4c5d-8e7f-001122334455" "s3cret";
         WithExpiry time.Hour];
        [WithToken ""; WithExpiry (10 * time.Minute)]].
Proof. repeat split. Qed.

(** A process with no token installed: the loop returns at once. *)
Lemma refresh_loop_needs_token_witness :
  refreshAuthToken (scripted None 0 provider_ok) 5 cli_world
  = (Ret Returned, cli_world).
Proof.
  apply (proj1 (refresh_loop_needs_token (scripted None 0 provider_ok) 5
                  cli_world)).
  reflexivity.
Defined.

(** * Further properties *)

(** ** Error presentation *)

Lemma EncodeRune_not_empty (r : Z) : utf8.EncodeRune r <> "".
Proof.
  unfold utf8.EncodeRune.
  repeat match goal with
         | |- context [if ?b then _ else _] => destruct b
         end; discriminate.
Qed.

Lemma append_not_empty (a b : string) : a <> "" -> (a ++ b)%string <> "".
Proof. destruct a; [congruence|discriminate]. Qed.



Lemma chr_byte (c : ascii) : utf8.chr (utf8.byte c) = c.
Proof.
  unfold utf8.chr, utf8.byte. rewrite N2Z.id. apply ascii_N_embedding.
Qed.

(** The message presented is empty exactly when the detail of a
    [*errors.Error], or the message of another error, is empty: an error
    with an empty detail is presented by nothing, whatever else it holds. *)
Theorem formatErr_empty_iff (up : Z -> Z) (txt : string) (err : error) :
  formatErr up txt err = "" <-> chosen_message txt err = "".
Proof.
  rewrite formatErr_chooses. destruct (chosen_message txt err) as [|c rest].
  - split; reflexivity.
  - split; [|discriminate]. unfold upcaseInitial. intros H. exfalso.
    revert H. apply append_not_empty, EncodeRune_not_empty.
Qed.

(** On a message that starts with an ASCII character, [upcaseInitial]
    keeps the length, is the identity unless that character is a
    lower-case letter, and applied twice is [upcaseInitial] applied once. *)
Theorem upcaseInitial_ascii (up : Z -> Z) (c : ascii) (rest : string) :
  utf8.byte c < 128 ->
  String.length (upcaseInitial up (String c rest)) = String.length (String c rest)
  /\ (utf8.between 97 122 (utf8.byte c) = false ->
      upcaseInitial up (String c rest) = String c rest)
  /\ upcaseInitial up (upcaseInitial up (String c rest))
     = upcaseInitial up (String c rest).
Proof.
  intros Hc. pose proof (byte_lt_256 c) as Hb.
  destruct (upcaseInitial_ascii_initial up c rest Hc) as [Hrun _].
  assert (Hfix : utf8.between 97 122 (utf8.byte c) = false ->
                 upcaseInitial up (String c rest) = String c rest).
  { intros Hlow. rewrite Hrun. unfold ToUpper, MaxASCII.
    destruct (Z.leb_spec (utf8.byte c) 127); [|lia].
    unfold utf8.between in Hlow. rewrite Hlow, chr_byte. reflexivity. }
  split; [rewrite Hrun; reflexivity|]. split; [exact Hfix|].
  destruct (utf8.between 97 122 (utf8.byte c)) eqn:Hlow.
  - rewrite Hrun. unfold ToUpper, MaxASCII.
    destruct (Z.leb_spec (utf8.byte c) 127); [|lia].
    unfold utf8.between in Hlow. rewrite Hlow.
    apply andb_true_iff in Hlow. destruct Hlow as [H1 H2].
    apply Z.leb_le in H1, H2.
    set (u := utf8.byte c - (97 - 65)).
    assert (Hu : utf8.byte (utf8.chr u) = u).
    { unfold utf8.byte, utf8.chr. rewrite N_ascii_embedding.
      - apply Z2N.id. subst u. lia.
      - apply N2Z.inj_lt. rewrite Z2N.id by (subst u; lia). subst u.
        change (Z.of_N 256) with 256. lia. }
    destruct (upcaseInitial_ascii_initial up (utf8.chr u) rest) as [Hrun' _].
    { rewrite Hu. subst u. lia. }
    rewrite Hrun', Hu. unfold ToUpper, MaxASCII.
    destruct (Z.leb_spec u 127); [|subst u; lia].
    destruct ((97 <=? u) && (u <=? 122)) eqn:E; [|reflexivity].
    apply andb_true_iff in E. destruct E as [E1 E2]. apply Z.leb_le in E1.
    subst u. lia.
  - rewrite (Hfix eq_refl). exact (Hfix eq_refl).
Qed.

Lemma upcaseInitial_ascii_witness :
  String.length (upcaseInitial Latin1_UpperCase "io timeout")
  = String.length "io timeout"
  /\ (utf8.between 97 122 (utf8.byte "i") = false ->
      upcaseInitial Latin1_UpperCase "io timeout" = "io timeout")
  /\ upcaseInitial Latin1_UpperCase (upcaseInitial Latin1_UpperCase "io timeout")
     = upcaseInitial Latin1_UpperCase "io timeout".
Proof.
  apply (upcaseInitial_ascii Latin1_UpperCase "i" "o timeout"). reflexivity.
Defined.




(** On a message whose first byte starts no UTF-8 character, that byte is
    replaced by the three bytes of the replacement character [U+FFFD], when
    the case table leaves that character as it is. *)
Theorem upcaseInitial_invalid_initial (up : Z -> Z) (c : ascii) (rest : string) :
  up utf8.RuneError = utf8.RuneError ->
  128 <= utf8.byte c < 194 \/ 245 <= utf8.byte c ->
  upcaseInitial up (String c rest)
  = String (utf8.chr 239) (String (utf8.chr 191) (String (utf8.chr 189) rest)).
Proof.
  intros Hup Hc.
  assert (Hdec : utf8.DecodeRuneInString (String c rest) = (utf8.RuneError, 1)).
  { unfold utf8.DecodeRuneInString, utf8.between.
    destruct (Z.ltb_spec (utf8.byte c) 128); [lia|].
    destruct (Z.leb_spec 194 (utf8.byte c)), (Z.leb_spec (utf8.byte c) 223),
      (Z.leb_spec 224 (utf8.byte c)), (Z.leb_spec (utf8.byte c) 239),
      (Z.leb_spec 240 (utf8.byte c)), (Z.leb_spec (utf8.byte c) 244);
      cbn [andb]; try reflexivity; lia. }
  unfold upcaseInitial. rewrite Hdec. cbn [fst].
  replace (ToUpper up utf8.RuneError) with utf8.RuneError
    by (unfold ToUpper; cbn; rewrite Hup; reflexivity).
  reflexivity.
Qed.

Lemma upcaseInitial_invalid_initial_witness :
  upcaseInitial Latin1_UpperCase (String (utf8.chr 255) "oops")
  = String (utf8.chr 239) (String (utf8.chr 191) (String (utf8.chr 189) "oops")).
Proof.
  apply (upcaseInitial_invalid_initial Latin1_UpperCase (utf8.chr 255) "oops").
  - reflexivity.
  - right. vm_compute. discriminate.
Defined.

(** ** The CLI flow *)

(** A failure to read the environment, its namespace or the persisted
    token is returned as it is, before anything else is done: the world is
    unchanged, and [Before] ends the process. *)
Theorem CLI_read_error_is_fatal (X : Collaborators) (w : World) (e : error) :
  (exists env, util_GetEnv X = (env, Some e))
  \/ (exists env ns,
        util_GetEnv X = (env, None)
        /\ namespace_Get X (Name env) = (ns, Some e))
  \/ (exists env ns ptok,
        util_GetEnv X = (env, None)
        /\ namespace_Get X (Name env) = (ns, None)
        /\ clitoken_Get X = (ptok, Some e)) ->
  setupAuthForCLI X w = (Ret (Some e), w)
  /\ Before_auth X false w = (Ret (Fatal e), w).
Proof.
  intros Hread.
  assert (H : setupAuthForCLI X w = (Ret (Some e), w)).
  { unfold setupAuthForCLI.
    destruct Hread as [[env He]|[(env & ns & He & Hn)|(env & ns & ptok & He & Hn & Ht)]].
    - rewrite He. reflexivity.
    - rewrite He, Hn. reflexivity.
    - rewrite He, Hn, Ht. reflexivity. }
  split; [exact H|]. unfold Before_auth, bind. rewrite H. reflexivity.
Qed.

Lemma CLI_read_error_is_fatal_witness :
  setupAuthForCLI (without_namespace (Some lasting)) cli_world
  = (Ret (Some no_namespace), cli_world)
  /\ Before_auth (without_namespace (Some lasting)) false cli_world
     = (Ret (Fatal no_namespace), cli_world).
Proof.
  apply (CLI_read_error_is_fatal (without_namespace (Some lasting)) cli_world
           no_namespace).
  right. left. exists (mkEnv "dev"), "". split; reflexivity.
Defined.

Section CLI_flow_loaded.

Variable X : Collaborators.
Variables (env : Env) (ns : string) (tok : AccountToken).

Hypothesis env_found : util_GetEnv X = (env, None).
Hypothesis ns_found : namespace_Get X (Name env) = (ns, None).
Hypothesis tok_found : clitoken_Get X = (Some tok, None).

(** The flow, once the configuration is read. *)
Lemma setupAuthForCLI_loaded (w : World) :
  setupAuthForCLI X w
  = if len (RefreshToken tok) =? 0 then (Ret None, w)
    else if time_Now X (trace w) <? Expiry tok + time.Minute * -1
    then (Ret None,
          mkWorld (with_token_issuer (DefaultAuth w) (Some tok) ns) (trace w))
    else
      match auth_Token X (trace w) (CLI_request_of tok ns) with
      | (_, Some _) =>
        (Ret None,
         mkWorld (DefaultAuth w) (trace w ++ [EvToken (CLI_request_of tok ns)]))
      | (tok', None) =>
        (Ret (clitoken_Save X tok'),
         mkWorld (with_token_issuer (DefaultAuth w) tok' ns)
           (trace w ++ [EvToken (CLI_request_of tok ns); EvSave tok']))
      end.
Proof.
  unfold setupAuthForCLI. rewrite env_found, ns_found, tok_found.
  unfold bind, deref, ret, Now, time.Before, time.Add.
  destruct (len (RefreshToken tok) =? 0); [reflexivity|].
  destruct (time_Now X (trace w) <? Expiry tok + time.Minute * -1);
    [reflexivity|].
  unfold Token_.
  change [WithToken (RefreshToken tok); WithTokenIssuer ns;
          WithExpiry (time.Hour * 24)] with (CLI_request_of tok ns).
  destruct (auth_Token X (trace w) (CLI_request_of tok ns)) as [tok' [e|]];
    [reflexivity|].
  unfold auth_Init, Save. cbn. rewrite <- app_assoc. reflexivity.
Qed.

(** When the refresh-token request succeeds and saving its token fails,
    the flow returns the error of the save, which ends the process in
    [Before], although the token is installed by then. *)
Theorem CLI_save_failure_is_fatal (w : World) (tok' : option AccountToken)
  (e : error) :
  RefreshToken tok <> "" ->
  Expiry tok - time.Minute <= time_Now X (trace w) ->
  auth_Token X (trace w) (CLI_request_of tok ns) = (tok', None) ->
  clitoken_Save X tok' = Some e ->
  let w' := mkWorld (with_token_issuer (DefaultAuth w) tok' ns)
              (trace w ++ [EvToken (CLI_request_of tok ns); EvSave tok']) in
  setupAuthForCLI X w = (Ret (Some e), w')
  /\ Before_auth X false w = (Ret (Fatal e), w').
Proof.
  intros Hrt Hnow Hrsp Hsave w'.
  assert (H : setupAuthForCLI X w = (Ret (Some e), w')).
  { rewrite setupAuthForCLI_loaded, (len_nonzero _ Hrt).
    destruct (Z.ltb_spec (time_Now X (trace w)) (Expiry tok + time.Minute * -1))
      as [Hlt|_].
    { unfold time.Minute, time.Second, time.Nanosecond in *. lia. }
    rewrite Hrsp, Hsave. reflexivity. }
  split; [exact H|]. unfold Before_auth, bind. rewrite H. reflexivity.
Qed.

(** A session that ends the flow without a token never refreshes: when
    the persisted token has no refresh token, or when its refresh fails, the
    flow returns success and the loop started after it returns at once,
    after at most the one request of the flow. *)
Theorem CLI_unauthenticated_session_never_refreshes (w : World) (n : nat) :
  Token (DefaultAuth w) = None ->
  RefreshToken tok = ""
  \/ (Expiry tok - time.Minute <= time_Now X (trace w)
      /\ exists p e, auth_Token X (trace w) (CLI_request_of tok ns) = (p, Some e)) ->
  exists w',
    setupAuthForCLI X w = (Ret None, w')
    /\ refreshAuthToken X n w' = (Ret Returned, w')
    /\ DefaultAuth w' = DefaultAuth w
    /\ (List.length (exchanges (trace w'))
        <= List.length (exchanges (trace w)) + 1)%nat.
Proof.
  intros Hnone Hcase. rewrite setupAuthForCLI_loaded.
  assert (Hloop : forall tr, refreshAuthToken X n (mkWorld (DefaultAuth w) tr)
                             = (Ret Returned, mkWorld (DefaultAuth w) tr)).
  { intros tr. unfold refreshAuthToken, bind, auth_Options. cbn [DefaultAuth].
    rewrite Hnone. reflexivity. }
  destruct (len (RefreshToken tok) =? 0) eqn:Hlen.
  - exists w. split; [reflexivity|]. split; [|split; [reflexivity|lia]].
    destruct w as [o tr]. apply Hloop.
  - destruct Hcase as [Hrt|[Hnow (p & e & Hrsp)]].
    { apply len_zero in Hrt. congruence. }
    destruct (Z.ltb_spec (time_Now X (trace w)) (Expiry tok + time.Minute * -1))
      as [Hlt|_].
    { unfold time.Minute, time.Second, time.Nanosecond in *. lia. }
    rewrite Hrsp. eexists. split; [reflexivity|]. split; [apply Hloop|].
    split; [reflexivity|]. cbn [trace]. rewrite exchanges_app, length_app.
    cbn. lia.
Qed.

End CLI_flow_loaded.

Lemma CLI_save_failure_is_fatal_witness :
  setupAuthForCLI (unsaved (Some expired) (100 * time.Second)) cli_world
  = (Ret (Some read_only),
     mkWorld (mkOptions "" "" (Some fresh_token) "dev-issuer")
       [EvToken (CLI_request_of expired "dev-issuer");
        EvSave (Some fresh_token)])
  /\ Before_auth (unsaved (Some expired) (100 * time.Second)) false cli_world
     = (Ret (Fatal read_only),
        mkWorld (mkOptions "" "" (Some fresh_token) "dev-issuer")
          [EvToken (CLI_request_of expired "dev-issuer");
           EvSave (Some fresh_token)]).
Proof.
  apply (CLI_save_failure_is_fatal
           (unsaved (Some expired) (100 * time.Second))
           (mkEnv "dev") "dev-issuer" expired
           (eq_refl _) (eq_refl _) (eq_refl _)
           cli_world (Some fresh_token) read_only).
  - discriminate.
  - vm_compute. discriminate.
  - reflexivity.
  - reflexivity.
Defined.

Lemma CLI_unauthenticated_session_never_refreshes_witness :
  exists w',
    setupAuthForCLI (scripted (Some expired) (100 * time.Second) provider_down)
      cli_world = (Ret None, w')
    /\ refreshAuthToken (scripted (Some expired) (100 * time.Second) provider_down)
         7 w' = (Ret Returned, w')
    /\ DefaultAuth w' = DefaultAuth cli_world
    /\ (List.length (exchanges (trace w'))
        <= List.length (exchanges (trace cli_world)) + 1)%nat.
Proof.
  apply (CLI_unauthenticated_session_never_refreshes
           (scripted (Some expired) (100 * time.Second) provider_down)
           (mkEnv "dev") "dev-issuer" expired
           (eq_refl _) (eq_refl _) (eq_refl _) cli_world 7).
  - reflexivity.
  - right. split.
    + vm_compute. discriminate.
    + exists None, unauthorized. reflexivity.
Defined.

Ltac trace_facts :=
  unfold refreshed, regenerating;
  cbn [fst snd trace DefaultAuth ID Secret Issuer Token fold_left applyOption
       with_token with_token_issuer];
  rewrite ?exchanges_app, ?saves_app, ?generations_app, ?warnings_app,
    ?length_app;
  cbn [exchanges saves generations warnings List.length app].


(** ** The Service flow *)

Section Service_flow_more.

Variable X : Collaborators.

(** With an ID and a secret in auth state the Service flow asks for no
    account: it makes one token request with them, for 1 hour, installs the
    token beside them, and start-up goes on. *)
Theorem service_uses_supplied_credentials (w : World)
  (token : option AccountToken) :
  ID (DefaultAuth w) <> "" ->
  Secret (DefaultAuth w) <> "" ->
  let request := service_request (ID (DefaultAuth w)) (Secret (DefaultAuth w)) in
  auth_Token X (trace w) request = (token, None) ->
  let w' := mkWorld (with_token (DefaultAuth w) token)
              (trace w ++ [EvToken request]) in
  setupAuthForService X w = (Ret None, w')
  /\ Before_auth X true w = (Ret Started, w')
  /\ generations (trace w') = generations (trace w).
Proof.
  intros Hid Hsec request Htok w'.
  pose proof (service_with_credentials X w token Hid Hsec Htok) as H.
  split; [exact H|]. split.
  - unfold Before_auth, bind. rewrite H. reflexivity.
  - subst w'. trace_facts. apply app_nil_r.
Qed.

(** When the account is generated and the token request for it fails, the
    flow returns that error, which ends the process, and auth state is as
    it was: the credentials of the generated account are not installed. *)
Theorem service_exchange_failure_is_fatal (w : World) (acc : Account)
  (p : option AccountToken) (e : error) :
  ID (DefaultAuth w) = "" \/ Secret (DefaultAuth w) = "" ->
  let name := uuid_New X (trace w) in
  let pre := service_prelude X name in
  let request := service_request (acc_ID acc) (acc_Secret acc) in
  auth_Generate X (trace w) name service_account_options = (Some acc, None) ->
  auth_Token X (trace w ++ pre) request = (p, Some e) ->
  let w' := mkWorld (DefaultAuth w) (trace w ++ pre ++ [EvToken request]) in
  setupAuthForService X w = (Ret (Some e), w')
  /\ Before_auth X true w = (Ret (Fatal e), w').
Proof.
  intros Hcreds name pre request Hgen Htok w'.
  assert (Htest : (len (ID (DefaultAuth w)) =? 0)
                  || (len (Secret (DefaultAuth w)) =? 0) = true).
  { apply orb_true_iff. destruct Hcreds as [H|H]; [left|right];
      apply len_zero; exact H. }
  assert (H : setupAuthForService X w = (Ret (Some e), w')).
  { unfold setupAuthForService, bind, auth_Options. rewrite Htest.
    unfold uuid_New_String, Generate. fold name.
    change [WithType "service"; WithScopes ["service"]]
      with service_account_options.
    rewrite Hgen. unfold firstToken, bind, deref, ret, Token_, Debugf, emit.
    subst w' pre request. unfold service_prelude, service_request in *.
    destruct (logger_V_Debug X); cbn [trace DefaultAuth] in *;
      rewrite <- ?app_assoc in *; cbn [app] in *; rewrite Htok;
      reflexivity. }
  split; [exact H|]. unfold Before_auth, bind. rewrite H. reflexivity.
Qed.

(** Whatever the collaborators answer, the Service flow saves nothing,
    leaves the issuer as it is, asks for at most one account and makes at
    most one token request; unless it returns success, auth state is as it
    was, and when it returns success it has made its token request. *)
Theorem service_flow_frame (w : World) :
  let out := fst (setupAuthForService X w) in
  let w' := snd (setupAuthForService X w) in
  Issuer (DefaultAuth w') = Issuer (DefaultAuth w)
  /\ saves (trace w') = saves (trace w)
  /\ (List.length (generations (trace w'))
      <= List.length (generations (trace w)) + 1)%nat
  /\ (List.length (exchanges (trace w'))
      <= List.length (exchanges (trace w)) + 1)%nat
  /\ (out <> Ret None -> DefaultAuth w' = DefaultAuth w)
  /\ (out = Ret None ->
      List.length (exchanges (trace w'))
      = (List.length (exchanges (trace w)) + 1)%nat).
Proof.
  unfold setupAuthForService, firstToken, bind, deref, ret, panic,
    auth_Options, uuid_New_String, Generate, Token_, auth_Init, Debugf, emit.
  destruct ((len (ID (DefaultAuth w)) =? 0) || (len (Secret (DefaultAuth w)) =? 0)).
  - destruct (logger_V_Debug X);
      destruct (auth_Generate X (trace w) _ _) as [[acc|] [e|]];
      cbn [trace DefaultAuth];
      try match goal with
          | |- context [auth_Token X ?t ?r] =>
            destruct (auth_Token X t r) as [tok' [e|]]
          end;
      trace_facts; rewrite ?app_nil_r; repeat split; try lia; congruence.
  - destruct (auth_Token X (trace w) _) as [tok' [e|]];
      trace_facts; rewrite ?app_nil_r; repeat split; try lia; congruence.
Qed.

End Service_flow_more.

Lemma service_uses_supplied_credentials_witness :
  setupAuthForService (scripted None 0 provider_ok)
    (mkWorld (mkOptions "svc-1" "s3cret" None "micro") [])
  = (Ret None,
     mkWorld (service_auth fresh_token)
       [EvToken (service_request "svc-1" "s3cret")])
  /\ Before_auth (scripted None 0 provider_ok) true
       (mkWorld (mkOptions "svc-1" "s3cret" None "micro") [])
     = (Ret Started,
        mkWorld (service_auth fresh_token)
          [EvToken (service_request "svc-1" "s3cret")])
  /\ generations [EvToken (service_request "svc-1" "s3cret")] = generations [].
Proof.
  apply (service_uses_supplied_credentials (scripted None 0 provider_ok)
           (mkWorld (mkOptions "svc-1" "s3cret" None "micro") [])
           (Some fresh_token)).
  - discriminate.
  - discriminate.
  - reflexivity.
Defined.

Lemma service_exchange_failure_is_fatal_witness :
  setupAuthForService (scripted None 0 provider_down) cli_world
  = (Ret (Some unauthorized),
     mkWorld no_auth
       [EvGenerate "6f1d2c34-9a0b-4c5d-8e7f-001122334455" service_account_options;
        EvToken (service_request "6f1d2c34-9a0b-4c5d-8e7f-001122334455" "s3cret")])
  /\ Before_auth (scripted None 0 provider_down) true cli_world
     = (Ret (Fatal unauthorized),
        mkWorld no_auth
          [EvGenerate "6f1d2c34-9a0b-4c5d-8e7f-001122334455"
             service_account_options;
           EvToken (service_request "6f1d2c34-9a0b-4c5d-8e7f-001122334455"
                      "s3cret")]).
Proof.
  apply (service_exchange_failure_is_fatal (scripted None 0 provider_down)
           cli_world
           (mkAccount "6f1d2c34-9a0b-4c5d-8e7f-001122334455" "s3cret")
           None unauthorized).
  - left. reflexivity.
  - reflexivity.
  - reflexivity.
Defined.

(** ** The Refresh Loop *)

Section Refresh_loop_more.

Variable X : Collaborators.

(** A tick, case by case. *)
Lemma tick_run (w : World) :
  tick X w
  = match Token (DefaultAuth w) with
    | None => (Panic, w)
    | Some tok =>
      if time.Unix (Expiry tok) >? time.Unix (time_Now X (trace w) + time.Minute)
      then (Ret tt, w)
      else
        let tr1 := trace w ++ [EvToken (refresh_request tok)] in
        match auth_Token X (trace w) (refresh_request tok) with
        | (_, Some ErrInvalidToken) =>
          let request := credential_request (DefaultAuth w) in
          match fst (auth_Token X (tr1 ++ [regenerating]) request) with
          | Some t =>
            (Ret tt, mkWorld (with_token (DefaultAuth w) (Some t))
                       (tr1 ++ [regenerating; EvToken request; refreshed]))
          | None =>
            (Panic, mkWorld (DefaultAuth w)
                      (tr1 ++ [regenerating; EvToken request]))
          end
        | (_, Some _) =>
          (Ret tt, mkWorld (DefaultAuth w)
                     (tr1 ++ [EvWarnf "[Auth] Error refreshing token: %v"]))
        | (Some t, None) =>
          (Ret tt, mkWorld (with_token (DefaultAuth w) (Some t))
                     (tr1 ++ [refreshed]))
        | (None, None) => (Panic, mkWorld (DefaultAuth w) tr1)
        end
    end.
Proof.
  unfold tick, bind, auth_Options, ret, Now, time.Add.
  destruct (Token (DefaultAuth w)) as [tok|]; [|reflexivity].
  cbn [deref ret].
  destruct (time.Unix (Expiry tok) >? time.Unix (time_Now X (trace w) + time.Minute));
    [reflexivity|].
  unfold Token_.
  change [WithToken (RefreshToken tok); WithExpiry (time.Minute * 10)]
    with (refresh_request tok).
  destruct (auth_Token X (trace w) (refresh_request tok)) as [p [e|]].
  - destruct e; cbn [is_ErrInvalidToken];
      unfold Warnf, Debugf, emit, auth_Init, deref, ret, panic;
      cbn [trace DefaultAuth]; try (destruct p; reflexivity).
    change (EvWarnf _) with regenerating.
    change [WithCredentials (ID (DefaultAuth w)) (Secret (DefaultAuth w));
            WithExpiry (time.Minute * 10)]
      with (credential_request (DefaultAuth w)).
    destruct (auth_Token X _ (credential_request (DefaultAuth w))) as [[t|] e'];
      cbn [fst trace DefaultAuth fold_left applyOption];
      unfold refreshed, regenerating; rewrite <- ?app_assoc;
      destruct p; reflexivity.
  - cbn [is_ErrInvalidToken]. unfold Debugf, emit, auth_Init, deref, ret, panic.
    destruct p; reflexivity.
Qed.

(** When the refresh-token request of a tick succeeds, its token replaces
    the installed one, the rest of auth state is kept, and the tick ends
    after that one request, without a warning. *)
Theorem tick_refresh_success (w : World) (tok tok' : AccountToken) :
  Token (DefaultAuth w) = Some tok ->
  time.Unix (Expiry tok) <= time.Unix (time_Now X (trace w) + time.Minute) ->
  auth_Token X (trace w) (refresh_request tok) = (Some tok', None) ->
  tick X w
  = (Ret tt,
     mkWorld (with_token (DefaultAuth w) (Some tok'))
       (trace w ++ [EvToken (refresh_request tok); refreshed])).
Proof.
  intros Htok Hdue Hrsp. rewrite tick_run, Htok.
  destruct (Z.gtb_spec (time.Unix (Expiry tok))
              (time.Unix (time_Now X (trace w) + time.Minute))) as [Hgt|_];
    [lia|].
  cbn zeta. rewrite Hrsp, <- app_assoc. reflexivity.
Qed.

(** When the refresh-token request of a tick fails by another error than
    [ErrInvalidToken], the tick logs one warning and ends: auth state is as
    it was and no credential request is made. *)
Theorem tick_other_error (w : World) (tok : AccountToken)
  (p : option AccountToken) (e : error) :
  Token (DefaultAuth w) = Some tok ->
  time.Unix (Expiry tok) <= time.Unix (time_Now X (trace w) + time.Minute) ->
  auth_Token X (trace w) (refresh_request tok) = (p, Some e) ->
  e <> ErrInvalidToken ->
  tick X w
  = (Ret tt,
     mkWorld (DefaultAuth w)
       (trace w ++ [EvToken (refresh_request tok);
                    EvWarnf "[Auth] Error refreshing token: %v"])).
Proof.
  intros Htok Hdue Hrsp He. rewrite tick_run, Htok.
  destruct (Z.gtb_spec (time.Unix (Expiry tok))
              (time.Unix (time_Now X (trace w) + time.Minute))) as [Hgt|_];
    [lia|].
  cbn zeta. rewrite Hrsp.
  destruct e; [congruence| |]; destruct p; rewrite <- app_assoc; reflexivity.
Qed.

(** One more tick of the loop. *)
Lemma ticks_step (m : nat) (v : World) :
  ticks X (S m) v
  = match tick X (mkWorld (DefaultAuth v) (trace v ++ [EvTick])) with
    | (Ret _, v2) => ticks X m v2
    | (Panic, v2) => (Panic, v2)
    end.
Proof. reflexivity. Qed.

(** What a tick keeps, whatever the collaborators answer. *)
Lemma tick_frame (w : World) :
  let out := fst (tick X w) in
  let w' := snd (tick X w) in
  ID (DefaultAuth w') = ID (DefaultAuth w)
  /\ Secret (DefaultAuth w') = Secret (DefaultAuth w)
  /\ Issuer (DefaultAuth w') = Issuer (DefaultAuth w)
  /\ generations (trace w') = generations (trace w)
  /\ saves (trace w') = saves (trace w)
  /\ (List.length (exchanges (trace w'))
      <= List.length (exchanges (trace w)) + 2)%nat
  /\ (out = Ret tt -> Token (DefaultAuth w') <> None).
Proof.
  rewrite tick_run.
  destruct (Token (DefaultAuth w)) as [tok|] eqn:Htok.
  2:{ trace_facts. repeat split; try lia. discriminate. }
  destruct (time.Unix (Expiry tok) >? time.Unix (time_Now X (trace w) + time.Minute)).
  { trace_facts. repeat split; try lia. congruence. }
  cbn zeta.
  destruct (auth_Token X (trace w) (refresh_request tok)) as [[t|] [[]|]];
    try match goal with
        | |- context [auth_Token X ?tr ?r] =>
          destruct (auth_Token X tr r) as [[t'|] e']
        end;
    trace_facts; rewrite ?Htok, ?app_nil_r; repeat split;
    try lia; congruence.
Qed.

(** Whatever the collaborators answer and however long it runs, the loop
    leaves the ID, the secret and the issuer of auth state as they are,
    asks for no account, saves nothing, and makes at most two token
    requests a tick. *)
Theorem refresh_loop_frame (n : nat) (w : World) :
  let w' := snd (refreshAuthToken X n w) in
  ID (DefaultAuth w') = ID (DefaultAuth w)
  /\ Secret (DefaultAuth w') = Secret (DefaultAuth w)
  /\ Issuer (DefaultAuth w') = Issuer (DefaultAuth w)
  /\ generations (trace w') = generations (trace w)
  /\ saves (trace w') = saves (trace w)
  /\ (List.length (exchanges (trace w'))
      <= List.length (exchanges (trace w)) + 2 * n)%nat.
Proof.
  assert (Hticks : forall m v,
    let v' := snd (ticks X m v) in
    ID (DefaultAuth v') = ID (DefaultAuth v)
    /\ Secret (DefaultAuth v') = Secret (DefaultAuth v)
    /\ Issuer (DefaultAuth v') = Issuer (DefaultAuth v)
    /\ generations (trace v') = generations (trace v)
    /\ saves (trace v') = saves (trace v)
    /\ (List.length (exchanges (trace v'))
        <= List.length (exchanges (trace v)) + 2 * m)%nat).
  { induction m as [|m IH]; intros v.
    - cbn. repeat split; lia.
    - cbn zeta. rewrite ticks_step.
      pose proof (tick_frame (mkWorld (DefaultAuth v) (trace v ++ [EvTick])))
        as Hf.
      cbn zeta in Hf. revert Hf. trace_facts. rewrite !app_nil_r.
      destruct (tick X _) as [[[]|] v2]; cbn [fst snd];
        intros (H1 & H2 & H3 & H4 & H5 & H6 & _).
      + specialize (IH v2). cbn zeta in IH.
        destruct IH as (I1 & I2 & I3 & I4 & I5 & I6).
        repeat split; try congruence. lia.
      + repeat split; try congruence. lia. }
  unfold refreshAuthToken, bind, auth_Options.
  destruct (Token (DefaultAuth w)); [|cbn; repeat split; lia].
  specialize (Hticks n w). cbn zeta in Hticks.
  destruct (ticks X n w) as [[[]|] v']; cbn [snd] in *; exact Hticks.
Qed.

(** A loop that is still running holds a token: a tick never installs
    nil, it panics instead. *)
Theorem refresh_loop_keeps_a_token (n : nat) (w w' : World) :
  refreshAuthToken X n w = (Ret Looping, w') ->
  exists tok : AccountToken, Token (DefaultAuth w') = Some tok.
Proof.
  assert (Hticks : forall m v v',
    Token (DefaultAuth v) <> None ->
    ticks X m v = (Ret tt, v') -> Token (DefaultAuth v') <> None).
  { induction m as [|m IH]; intros v v' Hv Hrun.
    - cbn in Hrun. injection Hrun as <-. exact Hv.
    - rewrite ticks_step in Hrun.
      pose proof (tick_frame (mkWorld (DefaultAuth v) (trace v ++ [EvTick])))
        as Hf.
      cbn zeta in Hf.
      destruct (tick X _) as [[[]|] v2]; cbn [fst snd] in Hf;
        [|discriminate Hrun].
      apply (IH v2 v'); [|exact Hrun].
      apply Hf. reflexivity. }
  unfold refreshAuthToken, bind, auth_Options. intros Hrun.
  destruct (Token (DefaultAuth w)) as [t|] eqn:Htok; [|discriminate Hrun].
  destruct (ticks X n w) as [[[]|] v'] eqn:Ht; [|discriminate Hrun].
  injection Hrun as <-.
  destruct (Token (DefaultAuth v')) as [t'|] eqn:Hv'; [exists t'; reflexivity|].
  exfalso. apply (Hticks n w v'); [congruence|exact Ht|exact Hv'].
Qed.

End Refresh_loop_more.

Lemma tick_refresh_success_witness :
  tick (scripted None (650 * time.Second) provider_ok) (service_world installed)
  = (Ret tt,
     mkWorld (service_auth fresh_token)
       [EvToken (refresh_request installed); refreshed]).
Proof.
  apply (tick_refresh_success (scripted None (650 * time.Second) provider_ok)
           (service_world installed) installed fresh_token).
  - reflexivity.
  - vm_compute. discriminate.
  - reflexivity.
Defined.

Lemma tick_other_error_witness :
  tick (scripted None (650 * time.Second) provider_down) (service_world installed)
  = (Ret tt,
     mkWorld (service_auth installed)
       [EvToken (refresh_request installed);
        EvWarnf "[Auth] Error refreshing token: %v"]).
Proof.
  apply (tick_other_error (scripted None (650 * time.Second) provider_down)
           (service_world installed) installed None unauthorized).
  - reflexivity.
  - vm_compute. discriminate.
  - reflexivity.
  - discriminate.
Defined.

Lemma refresh_loop_keeps_a_token_witness :
  exists tok : AccountToken,
    Token (DefaultAuth (snd (refreshAuthToken
      (scripted None (650 * time.Second) provider_ok) 2
      (service_world installed))))
    = Some tok.
Proof.
  apply (refresh_loop_keeps_a_token
           (scripted None (650 * time.Second) provider_ok) 2
           (service_world installed)).
  reflexivity.
Defined.

(** ** A CLI session and the loop *)

Section CLI_session.

Variable X : Collaborators.
Variables (env : Env) (ns : string) (tok : AccountToken).

Hypothesis env_found : util_GetEnv X = (env, None).
Hypothesis ns_found : namespace_Get X (Name env) = (ns, None).
Hypothesis tok_found : clitoken_Get X = (Some tok, None).

(** The CLI flow installs no credentials.  So when it has installed the
    persisted token and the first tick of the loop finds the refresh token
    invalid, the credential request of that tick carries the ID and the
    secret that auth state held before the flow. *)
Theorem CLI_session_regenerates_with_prior_credentials (w : World)
  (p : option AccountToken) :
  RefreshToken tok <> "" ->
  time_Now X (trace w) < Expiry tok - time.Minute ->
  time.Unix (Expiry tok)
  <= time.Unix (time_Now X (trace w ++ [EvTick]) + time.Minute) ->
  auth_Token X (trace w ++ [EvTick]) (refresh_request tok)
  = (p, Some ErrInvalidToken) ->
  exists w1 out w2,
    setupAuthForCLI X w = (Ret None, w1)
    /\ refreshAuthToken X 1 w1 = (out, w2)
    /\ exchanges (trace w2)
       = exchanges (trace w)
         ++ [refresh_request tok;
             [WithCredentials (ID (DefaultAuth w)) (Secret (DefaultAuth w));
              WithExpiry (10 * time.Minute)]].
Proof.
  intros Hrt Hvalid Hdue Hrsp.
  rewrite (setupAuthForCLI_loaded X env ns tok env_found ns_found tok_found).
  rewrite (len_nonzero _ Hrt).
  destruct (Z.ltb_spec (time_Now X (trace w)) (Expiry tok + time.Minute * -1))
    as [_|Hge].
  2:{ unfold time.Minute, time.Second, time.Nanosecond in *. lia. }
  set (w1 := mkWorld (with_token_issuer (DefaultAuth w) (Some tok) ns) (trace w)).
  exists w1.
  destruct (refreshAuthToken X 1 w1) as [out w2] eqn:Hrun.
  exists out, w2. split; [reflexivity|]. split; [reflexivity|].
  unfold refreshAuthToken, bind, auth_Options in Hrun.
  cbn [w1 DefaultAuth Token with_token_issuer] in Hrun.
  rewrite ticks_step, tick_run in Hrun.
  cbn [w1 DefaultAuth trace Token with_token_issuer] in Hrun.
  destruct (Z.gtb_spec (time.Unix (Expiry tok))
              (time.Unix (time_Now X (trace w ++ [EvTick]) + time.Minute)))
    as [Hgt|_]; [lia|].
  cbn zeta in Hrun. rewrite Hrsp in Hrun.
  destruct p, (fst (auth_Token X _ _)) as [t|]; cbn in Hrun;
    injection Hrun as _ <-; trace_facts; rewrite ?app_nil_r, <- ?app_assoc;
    reflexivity.
Qed.

End CLI_session.

Lemma CLI_session_regenerates_with_prior_credentials_witness :
  exists w1 out w2,
    setupAuthForCLI (clocked (Some lasting) (3590 * time.Second) provider_revoked)
      cli_world = (Ret None, w1)
    /\ refreshAuthToken
         (clocked (Some lasting) (3590 * time.Second) provider_revoked) 1 w1
       = (out, w2)
    /\ exchanges (trace w2)
       = exchanges (trace cli_world)
         ++ [refresh_request lasting;
             [WithCredentials (ID (DefaultAuth cli_world))
                (Secret (DefaultAuth cli_world));
              WithExpiry (10 * time.Minute)]].
Proof.
  apply (CLI_session_regenerates_with_prior_credentials
           (clocked (Some lasting) (3590 * time.Second) provider_revoked)
           (mkEnv "dev") "dev-issuer" lasting
           (eq_refl _) (eq_refl _) (eq_refl _) cli_world None).
  - discriminate.
  - reflexivity.
  - vm_compute. discriminate.
  - reflexivity.
Defined.

(** ** The auth set-up of [Before] *)

(** What the options of the flags make of auth state: the namespace flag,
    when set, is the issuer; the credential flags, when one of them is set,
    are the ID and the secret, both of them. *)
Lemma Before_options (ctx : Flags) (o : Options) :
  fold_left applyBeforeOption (authOpts ctx) o
  = mkOptions
      (if (len (ctx "client_id") >? 0) || (len (ctx "client_secret") >? 0)
       then ctx "client_id" else ID o)
      (if (len (ctx "client_id") >? 0) || (len (ctx "client_secret") >? 0)
       then ctx "client_secret" else Secret o)
      (Token o)
      (if len (ctx "namespace") >? 0 then ctx "namespace" else Issuer o).
Proof.
  unfold authOpts. destruct o as [id secret token issuer].
  destruct (len (ctx "namespace") >? 0),
    ((len (ctx "client_id") >? 0) || (len (ctx "client_secret") >? 0)),
    ((len (ctx "public_key") >? 0) || (len (ctx "private_key") >? 0));
    reflexivity.
Qed.

Lemma len_positive (s : string) : s <> "" -> (len s >? 0) = true.
Proof.
  intros H. destruct s as [|c s]; [congruence|].
  unfold len. cbn [String.length]. apply Z.gtb_lt. lia.
Qed.

Lemma len_empty : (len "" >? 0) = false.
Proof. reflexivity. Qed.

Section Before_auth_setup.

Variable X : Collaborators.
Variable ctx : Flags.

(** The token request that ends the Service flow. *)
Lemma firstToken_run (id secret : string) (w : World) :
  firstToken X id secret w
  = match auth_Token X (trace w) (service_request id secret) with
    | (_, Some e) =>
      (Ret (Some e),
       mkWorld (DefaultAuth w) (trace w ++ [EvToken (service_request id secret)]))
    | (token, None) =>
      (Ret None,
       mkWorld (mkOptions id secret token (Issuer (DefaultAuth w)))
         (trace w ++ [EvToken (service_request id secret)]))
    end.
Proof.
  unfold firstToken, bind, Token_.
  change [WithCredentials id secret; WithExpiry time.Hour]
    with (service_request id secret).
  destruct (auth_Token X (trace w) (service_request id secret)) as [token [e|]];
    reflexivity.
Qed.

(** The Service flow, when it generates its account. *)
Lemma setupAuthForService_generating (w : World) :
  ID (DefaultAuth w) = "" \/ Secret (DefaultAuth w) = "" ->
  setupAuthForService X w
  = let name := uuid_New X (trace w) in
    match auth_Generate X (trace w) name service_account_options with
    | (_, Some e) =>
      (Ret (Some e),
       mkWorld (DefaultAuth w)
         (trace w ++ [EvGenerate name service_account_options]))
    | (None, None) =>
      (Panic, mkWorld (DefaultAuth w) (trace w ++ service_prelude X name))
    | (Some acc, None) =>
      firstToken X (acc_ID acc) (acc_Secret acc)
        (mkWorld (DefaultAuth w) (trace w ++ service_prelude X name))
    end.
Proof.
  intros Hcreds.
  assert (Htest : (len (ID (DefaultAuth w)) =? 0)
                  || (len (Secret (DefaultAuth w)) =? 0) = true).
  { apply orb_true_iff. destruct Hcreds as [H|H]; [left|right];
      apply len_zero; exact H. }
  unfold setupAuthForService, bind, auth_Options. rewrite Htest.
  unfold uuid_New_String, Generate, deref, ret, panic, Debugf, emit.
  change [WithType "service"; WithScopes ["service"]]
    with service_account_options.
  cbn zeta. unfold service_prelude.
  destruct (auth_Generate X (trace w) _ service_account_options)
    as [[acc|] [e|]]; try reflexivity;
    destruct (logger_V_Debug X); cbn [trace DefaultAuth];
    rewrite <- ?app_assoc; reflexivity.
Qed.

(** A service started with both credential flags asks for no account: its
    one request is a token for the ID and the secret of the flags, which are
    installed with the token; the issuer is the namespace flag when set. *)
Theorem Before_service_with_credential_flags (w : World)
  (token : option AccountToken) :
  ctx "client_id" <> "" ->
  ctx "client_secret" <> "" ->
  let request := service_request (ctx "client_id") (ctx "client_secret") in
  auth_Token X (trace w) request = (token, None) ->
  Before_setup_auth X true ctx w
  = (Ret Started,
     mkWorld
       (mkOptions (ctx "client_id") (ctx "client_secret") token
          (if len (ctx "namespace") >? 0 then ctx "namespace"
           else Issuer (DefaultAuth w)))
       (trace w ++ [EvToken request])).
Proof.
  intros Hid Hsec request Htok.
  unfold Before_setup_auth, bind at 1. rewrite Before_options.
  rewrite (len_positive _ Hid). cbn [orb].
  unfold Before_auth, bind.
  rewrite service_with_credentials with (token := token); try assumption.
  reflexivity.
Qed.

(** A service started with one credential flag and not the other asks
    for an account all the same: when the account and its token are
    granted, the ID and the secret installed are those of the account, and
    the value of the flag is dropped. *)
Theorem Before_service_with_one_credential_flag (w : World) (acc : Account)
  (token : option AccountToken) :
  (ctx "client_id" <> "" /\ ctx "client_secret" = "")
  \/ (ctx "client_id" = "" /\ ctx "client_secret" <> "") ->
  let name := uuid_New X (trace w) in
  let pre := service_prelude X name in
  let request := service_request (acc_ID acc) (acc_Secret acc) in
  auth_Generate X (trace w) name service_account_options = (Some acc, None) ->
  auth_Token X (trace w ++ pre) request = (token, None) ->
  Before_setup_auth X true ctx w
  = (Ret Started,
     mkWorld
       (mkOptions (acc_ID acc) (acc_Secret acc) token
          (if len (ctx "namespace") >? 0 then ctx "namespace"
           else Issuer (DefaultAuth w)))
       (trace w ++ pre ++ [EvToken request])).
Proof.
  intros Hone name pre request Hgen Htok.
  unfold Before_setup_auth, bind at 1. rewrite Before_options.
  assert (Hflags : (len (ctx "client_id") >? 0)
                   || (len (ctx "client_secret") >? 0) = true).
  { destruct Hone as [[H _]|[_ H]]; rewrite (len_positive _ H);
      [reflexivity|apply orb_true_r]. }
  rewrite Hflags. unfold Before_auth, bind.
  rewrite setupAuthForService_generating.
  2:{ cbn [DefaultAuth ID Secret]. tauto. }
  cbn [trace DefaultAuth]. cbn zeta. fold name. rewrite Hgen.
  fold pre. rewrite firstToken_run. cbn [trace DefaultAuth Issuer].
  fold request. rewrite Htok, <- app_assoc. reflexivity.
Qed.

Variables (env : Env) (ns : string) (tok : AccountToken).

Hypothesis env_found : util_GetEnv X = (env, None).
Hypothesis ns_found : namespace_Get X (Name env) = (ns, None).
Hypothesis tok_found : clitoken_Get X = (Some tok, None).

(** In a CLI session the issuer installed with the persisted token is the
    namespace of the environment, whatever the namespace flag holds; when
    the token has no refresh token, nothing is installed and the issuer is
    that of the flag. *)
Theorem Before_CLI_issuer (w : World) :
  ctx "namespace" <> "" ->
  (RefreshToken tok <> "" ->
   time_Now X (trace w) < Expiry tok - time.Minute ->
   exists w',
     Before_setup_auth X false ctx w = (Ret Started, w')
     /\ Issuer (DefaultAuth w') = ns
     /\ Token (DefaultAuth w') = Some tok)
  /\ (RefreshToken tok = "" ->
      exists w',
        Before_setup_auth X false ctx w = (Ret Started, w')
        /\ Issuer (DefaultAuth w') = ctx "namespace"
        /\ Token (DefaultAuth w') = Token (DefaultAuth w)).
Proof.
  intros Hns. split.
  - intros Hrt Hvalid.
    unfold Before_setup_auth, bind at 1. rewrite Before_options.
    unfold Before_auth, bind.
    rewrite (setupAuthForCLI_loaded X env ns tok env_found ns_found tok_found).
    rewrite (len_nonzero _ Hrt). cbn [trace].
    destruct (Z.ltb_spec (time_Now X (trace w)) (Expiry tok + time.Minute * -1))
      as [_|Hge].
    2:{ unfold time.Minute, time.Second, time.Nanosecond in *. lia. }
    eexists. split; [reflexivity|]. split; reflexivity.
  - intros Hrt.
    unfold Before_setup_auth, bind at 1. rewrite Before_options.
    unfold Before_auth, bind.
    rewrite (setupAuthForCLI_loaded X env ns tok env_found ns_found tok_found).
    rewrite Hrt. cbn [len String.length Z.of_nat Z.eqb].
    eexists. split; [reflexivity|]. cbn [DefaultAuth Issuer Token].
    rewrite (len_positive _ Hns). split; reflexivity.
Qed.

End Before_auth_setup.

Lemma Before_service_with_credential_flags_witness :
  Before_setup_auth (scripted None 0 provider_ok) true credential_flags cli_world
  = (Ret Started,
     mkWorld (service_auth fresh_token)
       [EvToken (service_request "svc-1" "s3cret")]).
Proof.
  apply (Before_service_with_credential_flags (scripted None 0 provider_ok)
           credential_flags cli_world (Some fresh_token)).
  - discriminate.
  - discriminate.
  - reflexivity.
Defined.

Lemma Before_service_with_one_credential_flag_witness :
  Before_setup_auth (scripted None 0 provider_ok) true id_flags cli_world
  = (Ret Started,
     mkWorld
       (mkOptions "6f1d2c34-9a0b-4c5d-8e7f-001122334455" "s3cret"
          (Some fresh_token) "micro")
       [EvGenerate "6f1d2c34-9a0b-4c5d-8e7f-001122334455" service_account_options;
        EvToken (service_request "6f1d2c34-9a0b-4c5d-8e7f-001122334455" "s3cret")]).
Proof.
  apply (Before_service_with_one_credential_flag (scripted None 0 provider_ok)
           id_flags cli_world
           (mkAccount "6f1d2c34-9a0b-4c5d-8e7f-001122334455" "s3cret")
           (Some fresh_token)).
  - left. split; [discriminate|reflexivity].
  - reflexivity.
  - reflexivity.
Defined.

Lemma Before_CLI_issuer_witness :
  exists w',
    Before_setup_auth (scripted (Some lasting) 0 provider_ok) false default_flags
      cli_world = (Ret Started, w')
    /\ Issuer (DefaultAuth w') = "dev-issuer"
    /\ Token (DefaultAuth w') = Some lasting.
Proof.
  apply (proj1 (Before_CLI_issuer (scripted (Some lasting) 0 provider_ok)
                  default_flags (mkEnv "dev") "dev-issuer" lasting
                  (eq_refl _) (eq_refl _) (eq_refl _) cli_world
                  ltac:(discriminate))).
  - discriminate.
  - reflexivity.
Defined.
